(** * Fraud detector form (src/app.py): feature engineering and scoring

    A shallow embedding of the Streamlit script [app.py]:
    - [preprocess_input] (lines 35-77), the feature engineering that turns
      the seven form fields into the one-row pandas DataFrame the
      classifier was trained on;
    - the body of the submitted form (lines 108-139): the two classifier
      calls and the rendering of the verdict;
    - the rest of the script (module [App]): [load_model] under
      [st.cache_resource] (lines 16-31), the page header and the widgets
      of the form (lines 8-12 and 81-106), as one run of the script.

    Python floats are IEEE-754 binary64 numbers and are modelled by Rocq's
    primitive floats, which are the same numbers with the same rounding:
    [+] and [-] below round to nearest-even exactly as CPython does.
    Where a property depends on that rounding, it is proved against the
    Standard Library's specification of binary64 ([SpecFloat]).
    Python ints are [Z].  Exceptions are modelled by the name of the
    exception class. *)

From Stdlib Require Import ZArith Lia String List Bool Ascii.
From Stdlib Require Import Floats.
Import ListNotations.

Set Implicit Arguments.

(** ** Python results and indexing *)

Module Py.

(** The outcome of evaluating a Python expression: a value, or an
    exception, identified by the name of its class. *)
Inductive res (A : Type) : Type :=
| Ok (a : A)
| Raise (cls : string).

Arguments Ok {A} a.
Arguments Raise {A} cls.

Definition bind {A B : Type} (m : res A) (k : A -> res B) : res B :=
  match m with
  | Ok a => k a
  | Raise cls => Raise cls
  end.

(** [l[i]] for a non-negative literal index [i] on a list or on a
    one-dimensional numpy array: out of range raises IndexError. *)
Definition getitem {A : Type} (l : list A) (i : nat) : res A :=
  match nth_error l i with
  | Some a => Ok a
  | None => Raise "IndexError"
  end.

End Py.

Import Py.

(** ** The pandas DataFrame built by the script *)

Module Pandas.

(** A cell of the frame.  The slider and the type code are Python ints,
    every amount and balance is a Python float. *)
Inductive scalar : Type :=
| Int (z : Z)
| Float (f : float).

(** [pd.DataFrame(data, columns=columns)]: the rows, and the column
    labels in order. *)
Record DataFrame : Type := mkDataFrame {
  data : list (list scalar);
  columns : list string
}.

(** Position of a label in [columns]. *)
Fixpoint get_loc (cols : list string) (label : string) : option nat :=
  match cols with
  | [] => None
  | c :: cols' =>
      if String.eqb c label then Some O
      else option_map S (get_loc cols' label)
  end.

(** [df[label].values[i]]: the cell of row [i] in the column called
    [label]; an unknown label raises KeyError, a row that does not exist
    raises IndexError. *)
Definition values_at (df : DataFrame) (label : string) (i : nat)
  : res scalar :=
  match get_loc (columns df) label with
  | None => Raise "KeyError"
  | Some j => bind (getitem (data df) i) (fun row => getitem row j)
  end.

End Pandas.

Import Pandas.

(** ** Feature engineering: [preprocess_input] *)

Open Scope float_scope.

(** Line 42: [0 if type_input == 'TRANSFER' else 1]. *)
Definition type_val (type_input : string) : Z :=
  if String.eqb type_input "TRANSFER" then 0%Z else 1%Z.

(** Line 46, the test of the imputation:
    [old_bal_dest == 0 and new_bal_dest == 0 and amount != 0]. *)
Definition suspicious_zero (amount old_bal_dest new_bal_dest : float) : bool :=
  (old_bal_dest =? 0) && (new_bal_dest =? 0) && negb (amount =? 0).

(** Lines 35-77. *)
Definition preprocess_input (step : Z) (type_input : string)
    (amount old_bal_orig new_bal_orig old_bal_dest new_bal_dest : float)
  : DataFrame :=
  let type_val := type_val type_input in
  let '(old_bal_dest_proc, new_bal_dest_proc) :=
    if suspicious_zero amount old_bal_dest new_bal_dest
    then (-1, -1)
    else (old_bal_dest, new_bal_dest) in
  let error_orig := new_bal_orig + amount - old_bal_orig in
  let error_dest := old_bal_dest_proc + amount - new_bal_dest_proc in
  let data := [[
      Int step;
      Int type_val;
      Float amount;
      Float old_bal_orig;
      Float new_bal_orig;
      Float old_bal_dest_proc;
      Float new_bal_dest_proc;
      Float error_orig;
      Float error_dest
    ]] in
  let columns := [
      "step"; "type"; "amount"; "oldBalanceOrig"; "newBalanceOrig";
      "oldBalanceDest"; "newBalanceDest"; "errorBalanceOrig";
      "errorBalanceDest"
    ]%string in
  mkDataFrame data columns.

(** ** The submitted form: scoring and rendering (lines 108-139) *)

(** The loaded model, used through its two scikit-learn methods.  Each
    call either raises or returns a numpy array: one row of class
    probabilities per input row for [predict_proba], one label per input
    row for [predict]. *)
Record Classifier : Type := mkClassifier {
  predict_proba : DataFrame -> res (list (list float));
  predict : DataFrame -> res (list Z)
}.

Module Streamlit.

(** A replacement field of an f-string is kept with its format
    specification and the value it formats; the literal text between
    the fields is kept as it is. *)
Inductive piece : Type :=
| Lit (s : string)
| Str (s : string)
| Num (spec : string) (x : scalar).

Definition fstring : Type := list piece.

(** The elements the script writes to the page. *)
Inductive element : Type :=
| divider
| error (body : fstring)
| success (body : fstring)
| header (body : fstring)
| subheader (body : fstring)
| markdown (body : fstring)
| info (body : fstring).

(** A script is run against the page written so far; an exception stops
    it and leaves on the page what was already written. *)
Definition script (A : Type) : Type := list element -> res A * list element.

Definition ret {A : Type} (a : A) : script A := fun page => (Ok a, page).

Definition bind {A B : Type} (m : script A) (k : A -> script B) : script B :=
  fun page =>
    match m page with
    | (Ok a, page') => k a page'
    | (Raise cls, page') => (Raise cls, page')
    end.

(** Evaluating a Python expression inside the script. *)
Definition eval {A : Type} (r : res A) : script A := fun page => (r, page).

(** [st.error(...)], [st.header(...)], ...: append an element. *)
Definition write (e : element) : script unit :=
  fun page => (Ok tt, page ++ [e]).

(** [with st.spinner(text): body].  The spinner is shown only while the
    body runs and leaves nothing on the page. *)
Definition spinner {A : Type} (text : string) (body : script A) : script A :=
  body.

End Streamlit.

Import Streamlit.

Notation "x <- m ;; k" := (Streamlit.bind m (fun x => k))
  (at level 61, m at next level, right associativity).
Notation "m ;;; k" := (Streamlit.bind m (fun _ => k))
  (at level 61, right associativity).

Open Scope string_scope.

Definition nl : string := String (ascii_of_nat 10) EmptyString.

(** The sixteen blanks that indent the lines of the markdown block. *)
Definition indent : string := "                ".

(** Lines 116-120, the block under the spinner. *)
Definition predict_block (model : Classifier) (input_data_df : DataFrame)
  : script (float * Z) :=
  spinner "Model sedang memproses..." (
    proba <- eval (predict_proba model input_data_df) ;;
    proba0 <- eval (getitem proba 0) ;;
    probability <- eval (getitem proba0 1) ;;
    labels <- eval (predict model input_data_df) ;;
    prediction <- eval (getitem labels 0) ;;
    ret (probability, prediction)).

(** Lines 122-139, the rendering of the verdict. *)
Definition show_result (type_input : string) (amount : float)
    (input_data_df : DataFrame) (probability : float) (prediction : Z)
  : script unit :=
  write divider ;;;
  if (prediction =? 1)%Z then
    write (error [Lit "❌ FRAUD DITEMUKAN! ("; Str type_input;
                  Lit " sebesar Rp "; Num ",.0f" (Float amount); Lit ")"]) ;;;
    write (header [Lit "Tingkat Risiko: "; Num ".2%" (Float probability)]) ;;;
    write (subheader
             [Lit "Tindakan: Blokir Transaksi dan Lakukan Investigasi."]) ;;;
    error_orig <- eval (values_at input_data_df "errorBalanceOrig" 0) ;;
    error_dest <- eval (values_at input_data_df "errorBalanceDest" 0) ;;
    write (markdown
             [Lit (nl ++ indent ++ "**Indikator Utama (Error Balance):**"
                   ++ nl ++ indent ++ "* Error Origin: `");
              Num ".2f" error_orig;
              Lit ("`" ++ nl ++ indent ++ "* Error Destination: `");
              Num ".2f" error_dest;
              Lit ("`" ++ nl ++ indent)])
  else
    write (success [Lit "✅ Transaksi DIIZINKAN. ("; Str type_input;
                    Lit " sebesar Rp "; Num ",.0f" (Float amount); Lit ")"]) ;;;
    write (header [Lit "Tingkat Risiko: "; Num ".2%" (Float probability)]) ;;;
    write (subheader [Lit "Tindakan: Lanjutkan Transaksi."]) ;;;
    write (info [Lit "Risiko dianggap rendah berdasarkan pola fitur Error Balance yang normal."]).

(** Lines 108-139: what runs when the form is submitted. *)
Definition on_submit (model : Classifier) (step : Z) (type_input : string)
    (amount old_bal_orig new_bal_orig old_bal_dest new_bal_dest : float)
  : script unit :=
  let input_data_df :=
    preprocess_input step type_input amount old_bal_orig new_bal_orig
                     old_bal_dest new_bal_dest in
  scored <- predict_block model input_data_df ;;
  show_result type_input amount input_data_df (fst scored) (snd scored).

(** Line 108, [if submit_btn:]. *)
Definition form (submit_btn : bool) (model : Classifier) (step : Z)
    (type_input : string)
    (amount old_bal_orig new_bal_orig old_bal_dest new_bal_dest : float)
  : script unit :=
  if submit_btn
  then on_submit model step type_input amount old_bal_orig new_bal_orig
                 old_bal_dest new_bal_dest
  else ret tt.

(** ** Vocabulary of the specification *)

(** The specification's recommendation, and the element that states it
    on the page. *)
Inductive recommendation : Type :=
| BLOCK_AND_INVESTIGATE
| ALLOW.

Definition recommendation_element (r : recommendation) : element :=
  match r with
  | BLOCK_AND_INVESTIGATE =>
      subheader [Lit "Tindakan: Blokir Transaksi dan Lakukan Investigasi."]
  | ALLOW => subheader [Lit "Tindakan: Lanjutkan Transaksi."]
  end.

(** The fraud probability shown as a percentage with two decimals. *)
Definition risk_element (probability : float) : element :=
  header [Lit "Tingkat Risiko: "; Num ".2%" (Float probability)].

(** The text of an element, of whatever kind. *)
Definition body_of (e : element) : fstring :=
  match e with
  | divider => []
  | error body | success body | header body | subheader body
  | markdown body | info body => body
  end.

(** The numbers an f-string formats: one entry per replacement field that
    holds a number, with its format specification, in order. *)
Definition fields (body : fstring) : list (string * scalar) :=
  flat_map (fun pc => match pc with
                      | Num spec x => [(spec, x)]
                      | _ => []
                      end) body.

(** Every number rendered by a list of elements, in page order. *)
Definition fields_shown (shown : list element) : list (string * scalar) :=
  flat_map (fun e => fields (body_of e)) shown.

(** The validated range of a balance or an amount: a real that is not
    negative ([min_value=0.0] on the form). *)
Definition non_negative (x : float) : Prop := (0 <=? x)%float = true.

(** The first row of a [predict_proba] result has exactly two classes. *)
Definition two_class (proba : list (list float)) : Prop :=
  exists p0 p1, nth_error proba 0 = Some [p0; p1].

(** ** Classifiers and amounts used as examples *)

(** A classifier that always answers [proba] and [labels]. *)
Definition constant_classifier (proba : list (list float)) (labels : list Z)
  : Classifier :=
  mkClassifier (fun _ => Ok proba) (fun _ => Ok labels).

(** Probability 0.25 of fraud, label 1. *)
Definition cautious : Classifier :=
  constant_classifier [[0x1.8p-1; 0x1p-2]%float] [1%Z].

(** Probability 0.25 of fraud, label 0. *)
Definition lenient : Classifier :=
  constant_classifier [[0x1.8p-1; 0x1p-2]%float] [0%Z].

(** One class only. *)
Definition one_class : Classifier :=
  constant_classifier [[1%float]] [0%Z].

(** Three classes. *)
Definition three_class : Classifier :=
  constant_classifier [[0x1p-1; 0x1p-2; 0x1p-2]%float] [2%Z].

(** The float that the literal [0.01] denotes in Python. *)
Definition one_cent : float := 0x1.47ae147ae147bp-7%float.

(** The form with its default values and an empty receiver account. *)
Definition empty_receiver : DataFrame :=
  preprocess_input 1 "TRANSFER" 50000 100000 50000 0 0.

(** ** Binary64 numbers as mantissa and exponent *)

(** [p * 2^a] for [a >= 0]: the mantissa [p] with [a] zero bits appended. *)
Definition pos_shl (p : positive) (a : Z) : positive :=
  match a with
  | Zpos d => Pos.iter xO p d
  | _ => p
  end.

(** The sentinel -1.0: sign, mantissa 2^52, exponent -52. *)
Definition minus_one : spec_float :=
  S754_finite true 4503599627370496 (-52).

(** A zero of either sign. *)
Definition is_zero_SF (x : spec_float) : bool :=
  match x with
  | S754_zero _ => true
  | _ => false
  end.

(** A zero or a finite number: neither an infinity nor a NaN. *)
Definition finite_SF (x : spec_float) : bool :=
  match x with
  | S754_zero _ | S754_finite _ _ _ => true
  | _ => false
  end.

(** ** The whole script (lines 7-139) *)

Module App.

(** What [joblib.load('fraud_detector_xgb_model.joblib')] does when it is
    called: it returns the model, or raises FileNotFoundError, or raises
    another Exception whose text is [message], or raises something that
    is not an Exception (KeyboardInterrupt, SystemExit). *)
Inductive load_outcome : Type :=
| Loaded (model : Classifier)
| FileNotFound
| Failed (message : string)
| Escaped (cls : string).

(** Where an element goes: the page, the sidebar, the form called [key],
    or column [i] of the columns laid out inside that form. *)
Inductive container : Type :=
| main
| sidebar
| in_form (key : string)
| in_column (key : string) (i : nat).

(** What the script puts on the page besides the elements of
    [Streamlit.element]. *)
Inductive widget : Type :=
| page_config (page_title layout : string)
| title (text : string)
| plain (e : element)
| slider (label : string) (min_value max_value value : Z)
| selectbox (label : string) (options : list string)
| number_input (label : string) (min_value value : float)
               (step : option float)
| caption (text : string)
| form_submit_button (label : string).

(** What outlives a run of the script is the cache of
    [st.cache_resource]; the page is rebuilt by each run. *)
Record world : Type := mkWorld {
  cache : option Classifier;
  page : list (container * widget)
}.

Definition app (A : Type) : Type := world -> res A * world.

Definition ret {A : Type} (a : A) : app A := fun w => (Ok a, w).

Definition raise {A : Type} (cls : string) : app A := fun w => (Raise cls, w).

Definition bind {A B : Type} (m : app A) (k : A -> app B) : app B :=
  fun w =>
    match m w with
    | (Ok a, w') => k a w'
    | (Raise cls, w') => (Raise cls, w')
    end.

Definition put (c : container) (x : widget) : app unit :=
  fun w => (Ok tt, mkWorld (cache w) (page w ++ [(c, x)])).

(** An input widget shows itself and returns its current value. *)
Definition input {A : Type} (c : container) (x : widget) (current : A)
  : app A :=
  bind (put c x) (fun _ => ret current).

(** A script over elements, run inside a container: what it writes is
    placed there, after what the page holds. *)
Definition within {A : Type} (c : container) (s : script A) : app A :=
  fun w =>
    let (r, written) := s [] in
    (r, mkWorld (cache w)
                (page w ++ map (fun e => (c, plain e)) written)).

(** [st.stop()]: the run ends here. *)
Definition stop {A : Type} : app A := raise "StopException".

(** [@st.cache_resource]: the body runs when nothing is cached, and what
    it returns is cached; a body that does not return caches nothing. *)
Definition cache_resource (body : app Classifier) : app Classifier :=
  fun w =>
    match cache w with
    | Some model => (Ok model, w)
    | None =>
        match body w with
        | (Ok model, w') => (Ok model, mkWorld (Some model) (page w'))
        | (Raise cls, w') => (Raise cls, w')
        end
    end.

(** Lines 16-28. *)
Definition load_model (file : load_outcome) : app Classifier :=
  cache_resource
    match file with
    | Loaded model => ret model
    | FileNotFound =>
        bind (put main (plain (error [Lit "File model 'fraud_detector_xgb_model.joblib' tidak ditemukan di direktori yang sama."])))
             (fun _ => stop)
    | Failed message =>
        bind (put main (plain (error [Lit "Gagal memuat model: ";
                                      Str message])))
             (fun _ => stop)
    | Escaped cls => raise cls
    end.

(** The values the widgets of the form return in a run. *)
Record form_state : Type := mkFormState {
  step : Z;
  type_input : string;
  amount : float;
  old_bal_orig : float;
  new_bal_orig : float;
  old_bal_dest : float;
  new_bal_dest : float;
  submit_btn : bool
}.

End App.

Import App.

Notation "x <~ m ;; k" := (App.bind m (fun x => k))
  (at level 61, m at next level, right associativity).
Notation "m ~~ k" := (App.bind m (fun _ => k))
  (at level 61, right associativity).

(** The key of the form. *)
Definition prediction_form : string := "prediction_form".

(** Lines 84-139, [with st.form("prediction_form"):]. *)
Definition form_block (model : Classifier) (ui : form_state) : app unit :=
  let col_input1 := in_column prediction_form 0 in
  let col_input2 := in_column prediction_form 1 in
  put col_input1 (plain (subheader [Lit "Detail Transaksi"])) ~~
  step <~ input col_input1
            (slider "Time Step (Jam ke-):" 1 744 1) (step ui) ;;
  type_input <~ input col_input1
            (selectbox "Tipe Transaksi" ["TRANSFER"; "CASH_OUT"])
            (type_input ui) ;;
  amount <~ input col_input1
            (number_input "Jumlah (Amount)" 0 50000 (Some 100%float))
            (amount ui) ;;
  put col_input2 (plain (subheader [Lit "Detail Saldo Akun"])) ~~
  old_bal_orig <~ input col_input2
            (number_input "Saldo Awal Pengirim (oldBalanceOrig)"
                          0 100000 None)
            (old_bal_orig ui) ;;
  new_bal_orig <~ input col_input2
            (number_input "Saldo Akhir Pengirim (newBalanceOrig)"
                          0 50000 None)
            (new_bal_orig ui) ;;
  put col_input2 (caption "Pastikan Saldo Akhir - Saldo Awal ≈ -Jumlah") ~~
  old_bal_dest <~ input col_input2
            (number_input "Saldo Awal Penerima (oldBalanceDest)" 0 0 None)
            (old_bal_dest ui) ;;
  new_bal_dest <~ input col_input2
            (number_input "Saldo Akhir Penerima (newBalanceDest)"
                          0 50000 None)
            (new_bal_dest ui) ;;
  put col_input2 (caption "Kasus Fraud Seringkali melibatkan Saldo Awal dan Akhir Destinasi 0.") ~~
  submit_btn <~ input (in_form prediction_form)
            (form_submit_button "ANALISIS FRAUD") (submit_btn ui) ;;
  within (in_form prediction_form)
    (form submit_btn model step type_input amount old_bal_orig
          new_bal_orig old_bal_dest new_bal_dest).

(** One run of the script, lines 7-139: [file] is what loading the model
    file does in this run, [ui] what the widgets return. *)
Definition run_script (file : load_outcome) (ui : form_state) : app unit :=
  put main (page_config "Production Fraud Detector" "wide") ~~
  put main (title "🚨 Simulasi Detektor Fraud Produksi") ~~
  put main (plain (markdown [Lit (nl ++ "Sistem ini menggunakan model **XGBoost** yang sudah dilatih pada dataset PaySim untuk mendeteksi penipuan dalam transaksi `TRANSFER` dan `CASH_OUT`." ++ nl)])) ~~
  model <~ load_model file ;;
  put sidebar (plain (success [Lit "Model XGBoost berhasil dimuat."])) ~~
  put main (plain (header [Lit "Simulasi Transaksi Real-Time"])) ~~
  put main (plain (markdown
    [Lit "Masukkan detail transaksi untuk dianalisis oleh model."])) ~~
  form_block model ui.

(** The state of the form when nothing was changed and the button was not
    pressed: the default of each widget. *)
Definition untouched : form_state :=
  mkFormState 1 "TRANSFER" 50000 100000 50000 0 50000 false.

(** The same state with the button pressed or released. *)
Definition with_submit (b : bool) (ui : form_state) : form_state :=
  mkFormState (step ui) (type_input ui) (amount ui) (old_bal_orig ui)
              (new_bal_orig ui) (old_bal_dest ui) (new_bal_dest ui) b.

(** A classifier whose calls raise. *)
Definition broken : Classifier :=
  mkClassifier (fun _ => Raise "XGBoostError")
               (fun _ => Raise "XGBoostError").

(** * Properties of the feature engineering *)

Section FeatureBuilder.

Variables (step : Z) (type_input : string).
Variables (amount old_bal_orig new_bal_orig old_bal_dest new_bal_dest : float).

Let df : DataFrame :=
  preprocess_input step type_input amount old_bal_orig new_bal_orig
                   old_bal_dest new_bal_dest.

(** The receiver balances after the imputation, as the frame holds them. *)
Lemma receiver_columns :
  values_at df "oldBalanceDest" 0
    = Ok (Float (if suspicious_zero amount old_bal_dest new_bal_dest
                 then (-1)%float else old_bal_dest)) /\
  values_at df "newBalanceDest" 0
    = Ok (Float (if suspicious_zero amount old_bal_dest new_bal_dest
                 then (-1)%float else new_bal_dest)).
Proof.
  unfold df, preprocess_input.
  destruct (suspicious_zero amount old_bal_dest new_bal_dest);
    split; reflexivity.
Qed.

(** The sender error balance, as the frame holds it. *)
Lemma error_orig_column :
  values_at df "errorBalanceOrig" 0
    = Ok (Float (new_bal_orig + amount - old_bal_orig)).
Proof.
  unfold df, preprocess_input.
  destruct (suspicious_zero amount old_bal_dest new_bal_dest); reflexivity.
Qed.

(** The receiver error balance, as the frame holds it. *)
Lemma error_dest_column :
  values_at df "errorBalanceDest" 0
    = Ok (Float (if suspicious_zero amount old_bal_dest new_bal_dest
                 then (-1 + amount - (-1))%float
                 else (old_bal_dest + amount - new_bal_dest)%float)).
Proof.
  unfold df, preprocess_input.
  destruct (suspicious_zero amount old_bal_dest new_bal_dest); reflexivity.
Qed.

End FeatureBuilder.

(** A balance in the validated range is not the sentinel. *)
Lemma non_negative_not_sentinel (x : float) :
  non_negative x -> x <> (-1)%float.
Proof.
  unfold non_negative. intros H E. subst x. vm_compute in H. discriminate.
Qed.

Lemma Float_inj (x y : float) : Float x = Float y -> x = y.
Proof. intros H. injection H as H. exact H. Qed.

Lemma Ok_inj (A : Type) (x y : A) : Ok x = Ok y -> x = y.
Proof. intros H. injection H as H. exact H. Qed.

(** C1, as the specification states it: the vector of scenario 2 would end
    in 50051, or in 50002 by the specification's own sum.  The code
    produces neither. *)
Lemma scenario2_vector_refuted :
  data empty_receiver
    <> [[Int 1; Int 0; Float 50000; Float 100000; Float 50000;
         Float (-1); Float (-1); Float 0; Float 50051]]
  /\ values_at empty_receiver "errorBalanceDest" 0 <> Ok (Float 50002).
Proof.
  split; intros H.
  - apply (f_equal (fun rows => nth 8 (nth 0 rows []) (Int 0))) in H.
    vm_compute in H. apply Float_inj in H. discriminate H.
  - vm_compute in H. apply Ok_inj, Float_inj in H. discriminate H.
Qed.

(** C1, amended: in scenario 2 (step 1, TRANSFER, amount 50000, sender
    100000 to 50000, receiver 0 to 0) the imputation triggers and the frame
    holds the single row [1, 0, 50000, 100000, 50000, -1, -1, 0, 50000]:
    the receiver error balance is -1 + 50000 - (-1) = 50000. *)
Theorem scenario2_vector :
  suspicious_zero 50000 0 0 = true /\
  data empty_receiver
    = [[Int 1; Int 0; Float 50000; Float 100000; Float 50000;
        Float (-1); Float (-1); Float 0; Float 50000]] /\
  values_at empty_receiver "errorBalanceDest" 0 = Ok (Float 50000).
Proof. repeat split. Qed.

(** C2, as the specification states it: with receiver balances 0 and 0 and
    amount 100 the receiver error balance would be 102.  It is not. *)
Lemma imputed_error_not_102 :
  values_at (preprocess_input 1 "TRANSFER" 100 100000 50000 0 0)
            "errorBalanceDest" 0
    <> Ok (Float 102).
Proof.
  intros H. vm_compute in H. apply Ok_inj, Float_inj in H. discriminate H.
Qed.

(** C2, amended: with receiver balances 0 and 0 and amount 100, whatever
    the other fields, both receiver columns hold -1.0 and the receiver
    error balance is -1.0 + 100 - (-1.0) = 100.0; with amount 0 the
    imputation does not trigger, both receiver columns hold 0 and the
    receiver error balance is 0. *)
Theorem imputation_gating (step : Z) (type_input : string)
    (old_bal_orig new_bal_orig : float) :
  let df100 :=
    preprocess_input step type_input 100 old_bal_orig new_bal_orig 0 0 in
  let df0 :=
    preprocess_input step type_input 0 old_bal_orig new_bal_orig 0 0 in
  (suspicious_zero 100 0 0 = true /\
   values_at df100 "oldBalanceDest" 0 = Ok (Float (-1)) /\
   values_at df100 "newBalanceDest" 0 = Ok (Float (-1)) /\
   values_at df100 "errorBalanceDest" 0 = Ok (Float 100)) /\
  (suspicious_zero 0 0 0 = false /\
   values_at df0 "oldBalanceDest" 0 = Ok (Float 0) /\
   values_at df0 "newBalanceDest" 0 = Ok (Float 0) /\
   values_at df0 "errorBalanceDest" 0 = Ok (Float 0)).
Proof. repeat split. Qed.

(** C3: for every input, the sender error balance of the frame is
    [new_bal_orig + amount - old_bal_orig] on the amount and the sender
    balances as entered (which the frame also holds unchanged), and the
    receiver error balance is [b + amount - a] where [b] and [a] are the
    receiver balances after the imputation step: -1.0 and -1.0 when
    [old_bal_dest == 0 and new_bal_dest == 0 and amount != 0], the balances
    as entered otherwise; these are also the receiver balances the frame
    holds.  The balances as entered would give another result: for an
    empty receiver account and the amount 0.01, the receiver error balance
    of the frame is not [0 + 0.01 - 0]. *)
Theorem error_balances (step : Z) (type_input : string)
    (amount old_bal_orig new_bal_orig old_bal_dest new_bal_dest : float) :
  let df :=
    preprocess_input step type_input amount old_bal_orig new_bal_orig
                     old_bal_dest new_bal_dest in
  let imputed :=
    ((old_bal_dest =? 0) && (new_bal_dest =? 0) && negb (amount =? 0))%float in
  let old_bal_dest_adj := if imputed then (-1)%float else old_bal_dest in
  let new_bal_dest_adj := if imputed then (-1)%float else new_bal_dest in
  (values_at df "amount" 0 = Ok (Float amount) /\
   values_at df "oldBalanceOrig" 0 = Ok (Float old_bal_orig) /\
   values_at df "newBalanceOrig" 0 = Ok (Float new_bal_orig) /\
   values_at df "errorBalanceOrig" 0
     = Ok (Float (new_bal_orig + amount - old_bal_orig))) /\
  (values_at df "oldBalanceDest" 0 = Ok (Float old_bal_dest_adj) /\
   values_at df "newBalanceDest" 0 = Ok (Float new_bal_dest_adj) /\
   values_at df "errorBalanceDest" 0
     = Ok (Float (old_bal_dest_adj + amount - new_bal_dest_adj))) /\
  values_at (preprocess_input step type_input one_cent old_bal_orig
                              new_bal_orig 0 0)
            "errorBalanceDest" 0
    <> Ok (Float (0 + one_cent - 0)).
Proof.
  intros df imputed old_bal_dest_adj new_bal_dest_adj.
  subst df old_bal_dest_adj new_bal_dest_adj.
  change imputed with (suspicious_zero amount old_bal_dest new_bal_dest).
  clear imputed.
  split; [| split].
  - unfold preprocess_input.
    destruct (suspicious_zero amount old_bal_dest new_bal_dest);
      repeat split.
  - unfold preprocess_input.
    destruct (suspicious_zero amount old_bal_dest new_bal_dest);
      repeat split.
  - rewrite error_dest_column. intros H.
    apply Ok_inj, Float_inj in H. vm_compute in H. discriminate H.
Qed.

(** The test of the imputation, conjunct by conjunct. *)
Lemma suspicious_zero_spec (amount old_bal_dest new_bal_dest : float) :
  suspicious_zero amount old_bal_dest new_bal_dest = true <->
  (old_bal_dest =? 0)%float = true /\
  (new_bal_dest =? 0)%float = true /\
  (amount =? 0)%float = false.
Proof.
  unfold suspicious_zero.
  rewrite !andb_true_iff, negb_true_iff. tauto.
Qed.

(** C4: for balances in the validated range, both receiver columns hold
    the sentinel -1.0 if and only if [old_bal_dest == 0], [new_bal_dest == 0]
    and [amount != 0]; in every other case both columns hold the balances
    as entered. *)
Theorem imputation_iff (step : Z) (type_input : string)
    (amount old_bal_orig new_bal_orig old_bal_dest new_bal_dest : float)
    (Hold : non_negative old_bal_dest) (Hnew : non_negative new_bal_dest) :
  let df :=
    preprocess_input step type_input amount old_bal_orig new_bal_orig
                     old_bal_dest new_bal_dest in
  let triggers :=
    (old_bal_dest =? 0)%float = true /\
    (new_bal_dest =? 0)%float = true /\
    (amount =? 0)%float = false in
  ((values_at df "oldBalanceDest" 0 = Ok (Float (-1)) /\
    values_at df "newBalanceDest" 0 = Ok (Float (-1))) <-> triggers) /\
  (~ triggers ->
   values_at df "oldBalanceDest" 0 = Ok (Float old_bal_dest) /\
   values_at df "newBalanceDest" 0 = Ok (Float new_bal_dest)).
Proof.
  intros df triggers.
  destruct (receiver_columns step type_input amount old_bal_orig new_bal_orig
                             old_bal_dest new_bal_dest) as [Eold Enew].
  fold df in Eold, Enew. rewrite Eold, Enew.
  unfold triggers. rewrite <- suspicious_zero_spec.
  destruct (suspicious_zero amount old_bal_dest new_bal_dest).
  - split; [tauto | intros H; exfalso; apply H; reflexivity].
  - split; [| tauto]. split; [| discriminate].
    intros [H _]. apply Ok_inj, Float_inj in H.
    exfalso. exact (non_negative_not_sentinel Hold H).
Qed.

Lemma imputation_iff_witness :
  non_negative 0 /\
  ((values_at empty_receiver "oldBalanceDest" 0 = Ok (Float (-1)) /\
    values_at empty_receiver "newBalanceDest" 0 = Ok (Float (-1))) <->
   ((0 =? 0)%float = true /\ (0 =? 0)%float = true /\
    (50000 =? 0)%float = false)).
Proof.
  split; [reflexivity |].
  refine (proj1 (@imputation_iff 1 "TRANSFER" 50000 100000 50000 0 0 _ _));
    reflexivity.
Defined.

(** C5: the type column holds 0 for "TRANSFER" and 1 for every other
    string, "CASH_OUT" among them. *)
Theorem type_encoding (step : Z) (type_input : string)
    (amount old_bal_orig new_bal_orig old_bal_dest new_bal_dest : float) :
  let df :=
    preprocess_input step type_input amount old_bal_orig new_bal_orig
                     old_bal_dest new_bal_dest in
  values_at df "type" 0 = Ok (Int (type_val type_input)) /\
  type_val "TRANSFER" = 0%Z /\
  type_val "CASH_OUT" = 1%Z /\
  (type_input = "TRANSFER" <-> type_val type_input = 0%Z) /\
  (type_input <> "TRANSFER" <-> type_val type_input = 1%Z).
Proof.
  intros df. subst df. unfold preprocess_input.
  split.
  { destruct (suspicious_zero amount old_bal_dest new_bal_dest); reflexivity. }
  split; [reflexivity |]. split; [reflexivity |].
  unfold type_val.
  destruct (String.eqb_spec type_input "TRANSFER") as [E | N].
  - subst type_input. split; split; easy.
  - split; split; easy.
Qed.

(** C6: the frame has one row of exactly nine cells under nine column
    labels, in the order step, type code (0 for "TRANSFER", 1 otherwise),
    amount, sender balance before and after as entered, receiver balance
    before and after adjusted by the imputation, sender error balance
    [new_bal_orig + amount - old_bal_orig], receiver error balance
    [adj_before + amount - adj_after]; read by label, the cell under each
    of the nine labels is the cell at the position of that label.  In
    scenario 1 (receiver 0 to 50000) no imputation triggers and the row is
    [1, 0, 50000, 100000, 50000, 0, 50000, 0, 0]. *)
Theorem feature_vector_order (step : Z) (type_input : string)
    (amount old_bal_orig new_bal_orig old_bal_dest new_bal_dest : float) :
  let df :=
    preprocess_input step type_input amount old_bal_orig new_bal_orig
                     old_bal_dest new_bal_dest in
  let type_code := if String.eqb type_input "TRANSFER" then 0%Z else 1%Z in
  let imputed :=
    ((old_bal_dest =? 0) && (new_bal_dest =? 0) && negb (amount =? 0))%float in
  let adj_before := if imputed then (-1)%float else old_bal_dest in
  let adj_after := if imputed then (-1)%float else new_bal_dest in
  let err_sender := (new_bal_orig + amount - old_bal_orig)%float in
  let err_receiver := (adj_before + amount - adj_after)%float in
  data df
    = [[Int step; Int type_code; Float amount;
        Float old_bal_orig; Float new_bal_orig;
        Float adj_before; Float adj_after;
        Float err_sender; Float err_receiver]] /\
  columns df
    = ["step"; "type"; "amount"; "oldBalanceOrig"; "newBalanceOrig";
       "oldBalanceDest"; "newBalanceDest"; "errorBalanceOrig";
       "errorBalanceDest"] /\
  (values_at df "step" 0 = Ok (Int step) /\
   values_at df "type" 0 = Ok (Int type_code) /\
   values_at df "amount" 0 = Ok (Float amount) /\
   values_at df "oldBalanceOrig" 0 = Ok (Float old_bal_orig) /\
   values_at df "newBalanceOrig" 0 = Ok (Float new_bal_orig) /\
   values_at df "oldBalanceDest" 0 = Ok (Float adj_before) /\
   values_at df "newBalanceDest" 0 = Ok (Float adj_after) /\
   values_at df "errorBalanceOrig" 0 = Ok (Float err_sender) /\
   values_at df "errorBalanceDest" 0 = Ok (Float err_receiver)) /\
  (suspicious_zero 50000 0 50000 = false /\
   data (preprocess_input 1 "TRANSFER" 50000 100000 50000 0 50000)
     = [[Int 1; Int 0; Float 50000; Float 100000; Float 50000;
         Float 0; Float 50000; Float 0; Float 0]]).
Proof.
  intros df type_code imputed adj_before adj_after err_sender err_receiver.
  subst df type_code err_sender err_receiver adj_before adj_after.
  change imputed with (suspicious_zero amount old_bal_dest new_bal_dest).
  clear imputed.
  unfold preprocess_input, type_val.
  destruct (suspicious_zero amount old_bal_dest new_bal_dest);
    repeat split.
Qed.

(** * Properties of the submitted form *)

(** The block under the spinner writes nothing; its result is the chain of
    the two classifier calls and the three subscripts. *)
Lemma predict_block_run (model : Classifier) (df : DataFrame)
    (page : list element) :
  predict_block model df page
  = (Py.bind (predict_proba model df) (fun proba =>
     Py.bind (getitem proba 0) (fun proba0 =>
     Py.bind (getitem proba0 1) (fun probability =>
     Py.bind (predict model df) (fun labels =>
     Py.bind (getitem labels 0) (fun prediction =>
     Ok (probability, prediction)))))),
     page).
Proof.
  unfold predict_block, spinner, Streamlit.bind, eval, ret.
  destruct (predict_proba model df) as [proba |]; cbn; [| reflexivity].
  destruct (getitem proba 0) as [proba0 |]; cbn; [| reflexivity].
  destruct (getitem proba0 1) as [probability |]; cbn; [| reflexivity].
  destruct (predict model df) as [labels |]; cbn; [| reflexivity].
  destruct (getitem labels 0) as [prediction |]; reflexivity.
Qed.

Lemma getitem_Some (A : Type) (l : list A) (i : nat) (a : A) :
  nth_error l i = Some a -> getitem l i = Ok a.
Proof. unfold getitem. intros ->. reflexivity. Qed.

Lemma getitem_short (A : Type) (l : list A) (i : nat) :
  (length l <= i)%nat -> getitem l i = Raise "IndexError".
Proof.
  unfold getitem. intros H. apply nth_error_None in H. rewrite H. reflexivity.
Qed.

Lemma predict_block_label (model : Classifier) (df : DataFrame)
    (page : list element) (p : float) (l : Z) :
  predict_block model df page = (Ok (p, l), page) ->
  exists labels, predict model df = Ok labels /\ nth_error labels 0 = Some l.
Proof.
  rewrite predict_block_run. intros H.
  apply (f_equal fst) in H. simpl in H.
  destruct (predict_proba model df) as [proba |]; [| discriminate].
  simpl in H. destruct (getitem proba 0) as [proba0 |]; [| discriminate].
  simpl in H. destruct (getitem proba0 1) as [probability |]; [| discriminate].
  simpl in H. destruct (predict model df) as [labels |]; [| discriminate].
  exists labels. split; [reflexivity |].
  simpl in H. unfold getitem in H.
  destruct (nth_error labels 0) as [prediction |]; [| discriminate].
  simpl in H. apply Ok_inj in H.
  apply (f_equal snd) in H. simpl in H. subst. reflexivity.
Qed.

(** C7, as the specification states it: a classifier whose probability
    output is not two-class would make the request fail with SchemaError.
    With one class the subscript raises IndexError, with three classes
    nothing is raised. *)
Lemma schema_error_refuted :
  (~ two_class [[1%float]] /\
   fst (predict_block one_class empty_receiver []) <> Raise "SchemaError") /\
  (~ two_class [[0x1p-1; 0x1p-2; 0x1p-2]%float] /\
   fst (predict_block three_class empty_receiver []) <> Raise "SchemaError").
Proof.
  split; split; try (intros [p0 [p1 H]]; discriminate H);
    vm_compute; discriminate.
Qed.

(** C7, amended: the fraud probability is entry 1 of row 0 of what
    [predict_proba] returns, and the label is entry 0 of what a separate
    call to [predict] returns; the label depends on [predict] alone and is
    no function of the probability.  When row 0 of the probability output
    has fewer than two entries the request stops with IndexError; no
    SchemaError is raised, and a row with more than two entries is
    accepted. *)
Theorem risk_evaluator (model : Classifier) (df : DataFrame)
    (page : list element) :
  (forall proba proba0 probability labels prediction,
     predict_proba model df = Ok proba ->
     nth_error proba 0 = Some proba0 ->
     nth_error proba0 1 = Some probability ->
     predict model df = Ok labels ->
     nth_error labels 0 = Some prediction ->
     predict_block model df page = (Ok (probability, prediction), page)) /\
  (forall proba proba0,
     predict_proba model df = Ok proba ->
     nth_error proba 0 = Some proba0 ->
     (length proba0 < 2)%nat ->
     predict_block model df page = (Raise "IndexError", page)) /\
  (forall model' p l p' l',
     predict model' df = predict model df ->
     predict_block model df page = (Ok (p, l), page) ->
     predict_block model' df page = (Ok (p', l'), page) ->
     l' = l) /\
  ~ (exists threshold : float -> Z,
       forall model0 p l,
         predict_block model0 df page = (Ok (p, l), page) ->
         l = threshold p).
Proof.
  repeat split.
  - intros proba proba0 probability labels prediction Hp H0 H1 Hl Hl0.
    rewrite predict_block_run, Hp. cbn.
    rewrite (getitem_Some _ _ H0). cbn.
    rewrite (getitem_Some _ _ H1). cbn.
    rewrite Hl. cbn.
    rewrite (getitem_Some _ _ Hl0). reflexivity.
  - intros proba proba0 Hp H0 Hlen.
    rewrite predict_block_run, Hp. cbn.
    rewrite (getitem_Some _ _ H0). cbn.
    rewrite getitem_short; [reflexivity | ].
    apply PeanoNat.Nat.lt_succ_r. exact Hlen.
  - intros model' p l p' l' Hsame H H'.
    apply predict_block_label in H. destruct H as [labels [Hl Hl0]].
    apply predict_block_label in H'. destruct H' as [labels' [Hl' Hl0']].
    rewrite Hsame, Hl in Hl'. apply Ok_inj in Hl'. subst labels'.
    rewrite Hl0 in Hl0'. injection Hl0' as E. symmetry. exact E.
  - intros [threshold H].
    assert (H1 : 1%Z = threshold 0x1p-2%float)
      by (apply (H cautious); rewrite predict_block_run; reflexivity).
    assert (H0 : 0%Z = threshold 0x1p-2%float)
      by (apply (H lenient); rewrite predict_block_run; reflexivity).
    rewrite <- H1 in H0. discriminate H0.
Qed.

Lemma risk_evaluator_witness :
  predict_block cautious empty_receiver []
  = (Ok (0x1p-2%float, 1%Z), []).
Proof.
  apply (proj1 (risk_evaluator cautious empty_receiver [])
           [[0x1.8p-1; 0x1p-2]%float] [0x1.8p-1; 0x1p-2]%float
           0x1p-2%float [1%Z] 1%Z);
    reflexivity.
Defined.

(** The handler, one step unfolded. *)
Lemma on_submit_step (model : Classifier) (step : Z) (type_input : string)
    (amount old_bal_orig new_bal_orig old_bal_dest new_bal_dest : float)
    (page : list element) :
  on_submit model step type_input amount old_bal_orig new_bal_orig
            old_bal_dest new_bal_dest page
  = match predict_block model
            (preprocess_input step type_input amount old_bal_orig
                              new_bal_orig old_bal_dest new_bal_dest) page
    with
    | (Ok scored, page') =>
        show_result type_input amount
          (preprocess_input step type_input amount old_bal_orig
                            new_bal_orig old_bal_dest new_bal_dest)
          (fst scored) (snd scored) page'
    | (Raise cls, page') => (Raise cls, page')
    end.
Proof. reflexivity. Qed.

(** What [show_result] leaves on the page, for each of its two branches. *)
Lemma show_result_block (type_input : string) (amount : float)
    (df : DataFrame) (probability : float) (error_orig error_dest : scalar)
    (page : list element) :
  values_at df "errorBalanceOrig" 0 = Ok error_orig ->
  values_at df "errorBalanceDest" 0 = Ok error_dest ->
  show_result type_input amount df probability 1 page
  = (Ok tt,
     (page ++
      [divider;
       error [Lit "❌ FRAUD DITEMUKAN! ("; Str type_input;
              Lit " sebesar Rp "; Num ",.0f" (Float amount); Lit ")"];
       risk_element probability;
       recommendation_element BLOCK_AND_INVESTIGATE;
       markdown
         [Lit (nl ++ indent ++ "**Indikator Utama (Error Balance):**"
               ++ nl ++ indent ++ "* Error Origin: `");
          Num ".2f" error_orig;
          Lit ("`" ++ nl ++ indent ++ "* Error Destination: `");
          Num ".2f" error_dest;
          Lit ("`" ++ nl ++ indent)]])%list).
Proof.
  intros Ho Hd.
  unfold show_result, Streamlit.bind, write, eval. cbn.
  rewrite Ho, Hd. cbn.
  rewrite <- !app_assoc. reflexivity.
Qed.

Lemma show_result_allow (type_input : string) (amount : float)
    (df : DataFrame) (probability : float) (prediction : Z)
    (page : list element) :
  prediction <> 1%Z ->
  show_result type_input amount df probability prediction page
  = (Ok tt,
     (page ++
      [divider;
       success [Lit "✅ Transaksi DIIZINKAN. ("; Str type_input;
                Lit " sebesar Rp "; Num ",.0f" (Float amount); Lit ")"];
       risk_element probability;
       recommendation_element ALLOW;
       info [Lit "Risiko dianggap rendah berdasarkan pola fitur Error Balance yang normal."]])%list).
Proof.
  intros Hne.
  unfold show_result, Streamlit.bind, write.
  apply Z.eqb_neq in Hne. rewrite Hne. cbn.
  rewrite <- !app_assoc. reflexivity.
Qed.

(** C8: once the classifier has answered probability [p] and label [l],
    the handler succeeds and adds to the page:
    - the probability as a percentage, whatever the label;
    - for label 1 the recommendation to block and investigate and not the
      one to allow, for label 0 the recommendation to allow and not the
      one to block;
    - as formatted numbers, the amount and the probability, followed by
      the sender and the receiver error balance of the frame exactly when
      the label is 1, and no other number.
    The elements added are given in full for both decisions: with label 1
    the last one is the markdown block of the two error balances, with any
    other label it is the note, which shows no number. *)
Theorem verdict_rendering (model : Classifier) (step : Z)
    (type_input : string)
    (amount old_bal_orig new_bal_orig old_bal_dest new_bal_dest : float)
    (page : list element) (p : float) (l : Z) :
  let df :=
    preprocess_input step type_input amount old_bal_orig new_bal_orig
                     old_bal_dest new_bal_dest in
  let error_orig := (new_bal_orig + amount - old_bal_orig)%float in
  let error_dest :=
    (if (old_bal_dest =? 0) && (new_bal_dest =? 0) && negb (amount =? 0)
     then -1 + amount - (-1)
     else old_bal_dest + amount - new_bal_dest)%float in
  predict_block model df page = (Ok (p, l), page) ->
  exists shown,
    on_submit model step type_input amount old_bal_orig new_bal_orig
              old_bal_dest new_bal_dest page
    = (Ok tt, (page ++ shown)%list) /\
    In (risk_element p) shown /\
    (l = 1%Z ->
     In (recommendation_element BLOCK_AND_INVESTIGATE) shown /\
     ~ In (recommendation_element ALLOW) shown) /\
    (l = 0%Z ->
     In (recommendation_element ALLOW) shown /\
     ~ In (recommendation_element BLOCK_AND_INVESTIGATE) shown) /\
    fields_shown shown
    = ([(",.0f", Float amount); (".2%", Float p)]
       ++ (if (l =? 1)%Z
           then [(".2f", Float error_orig); (".2f", Float error_dest)]
           else []))%list /\
    (l = 1%Z ->
     shown
     = [divider;
        error [Lit "❌ FRAUD DITEMUKAN! ("; Str type_input;
               Lit " sebesar Rp "; Num ",.0f" (Float amount); Lit ")"];
        header [Lit "Tingkat Risiko: "; Num ".2%" (Float p)];
        subheader
          [Lit "Tindakan: Blokir Transaksi dan Lakukan Investigasi."];
        markdown
          [Lit (nl ++ indent ++ "**Indikator Utama (Error Balance):**"
                ++ nl ++ indent ++ "* Error Origin: `");
           Num ".2f" (Float error_orig);
           Lit ("`" ++ nl ++ indent ++ "* Error Destination: `");
           Num ".2f" (Float error_dest);
           Lit ("`" ++ nl ++ indent)]]) /\
    (l <> 1%Z ->
     shown
     = [divider;
        success [Lit "✅ Transaksi DIIZINKAN. ("; Str type_input;
                 Lit " sebesar Rp "; Num ",.0f" (Float amount); Lit ")"];
        header [Lit "Tingkat Risiko: "; Num ".2%" (Float p)];
        subheader [Lit "Tindakan: Lanjutkan Transaksi."];
        info [Lit "Risiko dianggap rendah berdasarkan pola fitur Error Balance yang normal."]]).
Proof.
  intros df error_orig error_dest Hscore.
  pose proof (error_orig_column step type_input amount old_bal_orig
                new_bal_orig old_bal_dest new_bal_dest) as Ho.
  pose proof (error_dest_column step type_input amount old_bal_orig
                new_bal_orig old_bal_dest new_bal_dest) as Hd.
  fold df in Ho, Hd.
  change (values_at df "errorBalanceOrig" 0 = Ok (Float error_orig)) in Ho.
  change (values_at df "errorBalanceDest" 0 = Ok (Float error_dest)) in Hd.
  rewrite on_submit_step. fold df. rewrite Hscore. cbn [fst snd].
  destruct (Z.eq_dec l 1) as [-> | Hne].
  - rewrite (show_result_block type_input amount df p page Ho Hd).
    eexists. split; [reflexivity |].
    split; [cbn; tauto |].
    split.
    { intros _. split; [cbn; tauto |].
      cbn. intros [H | [H | [H | [H | [H | []]]]]]; discriminate H. }
    split; [intros H; discriminate H |].
    split; [reflexivity |].
    split; [intros _; reflexivity | intros H; contradiction].
  - rewrite (show_result_allow type_input amount df p page Hne).
    eexists. split; [reflexivity |].
    split; [cbn; tauto |].
    split; [intros H; contradiction |].
    split.
    { intros _. split; [cbn; tauto |].
      cbn. intros [H | [H | [H | [H | [H | []]]]]]; discriminate H. }
    split.
    { apply Z.eqb_neq in Hne. rewrite Hne. reflexivity. }
    split; [intros H; contradiction | intros _; reflexivity].
Qed.

Lemma verdict_rendering_witness :
  exists shown,
    on_submit cautious 1 "TRANSFER" 50000 100000 50000 0 0 []
    = (Ok tt, shown) /\
    In (risk_element 0x1p-2) shown /\
    In (recommendation_element BLOCK_AND_INVESTIGATE) shown /\
    fields_shown shown
    = [(",.0f", Float 50000); (".2%", Float 0x1p-2);
       (".2f", Float 0); (".2f", Float 50000)].
Proof.
  destruct (@verdict_rendering cautious 1 "TRANSFER" 50000 100000 50000 0 0
              [] 0x1p-2%float 1%Z eq_refl)
    as [shown [Hrun [Hrisk [Hblock [_ [Hfields _]]]]]].
  exists shown. split; [exact Hrun |]. split; [exact Hrisk |].
  split; [exact (proj1 (Hblock eq_refl)) |].
  exact Hfields.
Defined.

(** * Rounding of the receiver error balance *)

Unset Implicit Arguments.

Section Binary64.

Local Open Scope Z_scope.

(** Appending [d] zero bits multiplies by [2^d]. *)
Lemma iter_xO_Z (p : positive) (d : positive) :
  Zpos (Pos.iter xO p d) = Zpos p * 2 ^ Zpos d.
Proof.
  induction d as [| d IH] using Pos.peano_ind.
  - cbn [Pos.iter]. rewrite Pos2Z.inj_xO. change (2 ^ 1) with 2. lia.
  - rewrite Pos.iter_succ, Pos2Z.inj_xO, IH, Pos2Z.inj_succ.
    rewrite Z.pow_succ_r by lia. lia.
Qed.

Lemma shl_Z (p : positive) (a : Z) :
  0 <= a -> Zpos (pos_shl p a) = Zpos p * 2 ^ a.
Proof.
  destruct a as [| d | d]; intros Ha.
  - cbn. lia.
  - apply iter_xO_Z.
  - lia.
Qed.

(** ... and adds [d] to the number of bits. *)
Lemma iter_xO_digits (p : positive) (d : positive) :
  Zpos (digits2_pos (Pos.iter xO p d)) = Zpos (digits2_pos p) + Zpos d.
Proof.
  induction d as [| d IH] using Pos.peano_ind.
  - cbn [Pos.iter digits2_pos]. lia.
  - rewrite Pos.iter_succ. cbn [digits2_pos].
    rewrite Pos2Z.inj_succ, IH. lia.
Qed.

Lemma shl_digits (p : positive) (a : Z) :
  0 <= a -> Zpos (digits2_pos (pos_shl p a)) = Zpos (digits2_pos p) + a.
Proof.
  destruct a as [| d | d]; intros Ha.
  - cbn. lia.
  - apply iter_xO_digits.
  - lia.
Qed.

(** A positive of [n] bits lies in [[2^(n-1), 2^n)]. *)
Lemma digits_bounds (p : positive) :
  2 ^ (Zpos (digits2_pos p) - 1) <= Zpos p < 2 ^ Zpos (digits2_pos p).
Proof.
  induction p as [p IH | p IH |].
  - cbn [digits2_pos]. rewrite Pos2Z.inj_succ.
    replace (Z.succ (Zpos (digits2_pos p)) - 1)
      with (Z.succ (Zpos (digits2_pos p) - 1)) by lia.
    rewrite !Z.pow_succ_r by lia. lia.
  - cbn [digits2_pos]. rewrite Pos2Z.inj_succ.
    replace (Z.succ (Zpos (digits2_pos p)) - 1)
      with (Z.succ (Zpos (digits2_pos p) - 1)) by lia.
    rewrite !Z.pow_succ_r by lia. lia.
  - cbn. lia.
Qed.

Lemma digits_le (p : positive) (d : Z) :
  Zpos p < 2 ^ d -> Zpos (digits2_pos p) <= d.
Proof.
  intros H. destruct (Z_le_gt_dec (Zpos (digits2_pos p)) d) as [L | G]; [exact L |].
  exfalso. pose proof (digits_bounds p) as [B _].
  destruct (Z_lt_le_dec d 0) as [N | P].
  - rewrite Z.pow_neg_r in H by exact N. lia.
  - assert (2 ^ d <= 2 ^ (Zpos (digits2_pos p) - 1))
      by (apply Z.pow_le_mono_r; lia).
    lia.
Qed.

(** [SpecFloat]'s iterator agrees with [Pos.iter]. *)
Lemma iter_pos_iter (A : Type) (f : A -> A) (n : positive) (x : A) :
  iter_pos f n x = Pos.iter f x n.
Proof.
  revert x. induction n as [n IH | n IH |]; intros x; cbn.
  - rewrite !IH. rewrite <- !Pos.iter_swap. reflexivity.
  - rewrite !IH. reflexivity.
  - reflexivity.
Qed.

(** Shifting right the [d] zero bits that were appended loses nothing:
    the round and sticky bits stay clear. *)
Lemma shr_exact (m : positive) (d : positive) :
  iter_pos shr_1 d (Build_shr_record (Zpos (Pos.iter xO m d)) false false)
  = Build_shr_record (Zpos m) false false.
Proof.
  rewrite iter_pos_iter.
  induction d as [| d IH] using Pos.peano_ind.
  - reflexivity.
  - rewrite Pos.iter_succ_r, Pos.iter_succ. cbn [shr_1 orb]. exact IH.
Qed.

(** The exponent of a normal number of magnitude [k]. *)
Lemma fexp_normal (k : Z) : -1021 <= k -> fexp prec emax k = k - 53.
Proof. unfold fexp, emin, prec, emax. lia. Qed.

(** A 53-bit mantissa at an exponent in range is kept as it is. *)
Lemma round_canonical (mz : positive) (ez : Z) :
  Zpos (digits2_pos mz) = 53 -> -1074 <= ez <= 971 ->
  binary_round_aux prec emax false (Zpos mz) ez loc_Exact
  = S754_finite false mz ez.
Proof.
  intros Hd He.
  unfold binary_round_aux, shr_fexp. cbn [Zdigits2 shr_record_of_loc].
  rewrite Hd, fexp_normal by lia.
  replace (53 + ez - 53 - ez) with 0 by lia.
  cbn [shr shr_m loc_of_shr_record round_nearest_even Zdigits2
       shr_record_of_loc].
  rewrite Hd, fexp_normal by lia.
  replace (53 + ez - 53 - ez) with 0 by lia.
  cbn [shr shr_m].
  replace (ez <=? emax - prec) with true; [reflexivity |].
  symmetry. apply Z.leb_le. unfold emax, prec. lia.
Qed.

(** A 53-bit mantissa followed by [d] zero bits is shifted back, exactly. *)
Lemma round_shifted (m : positive) (d : positive) (ez : Z) :
  Zpos (digits2_pos m) = 53 -> -1074 <= ez + Zpos d <= 971 ->
  binary_round_aux prec emax false (Zpos (Pos.iter xO m d)) ez loc_Exact
  = S754_finite false m (ez + Zpos d).
Proof.
  intros Hd He.
  unfold binary_round_aux, shr_fexp. cbn [Zdigits2 shr_record_of_loc].
  rewrite iter_xO_digits, Hd, fexp_normal by lia.
  replace (53 + Zpos d + ez - 53 - ez) with (Zpos d) by lia.
  cbn [shr]. rewrite shr_exact.
  cbn [shr_m loc_of_shr_record round_nearest_even Zdigits2
       shr_record_of_loc].
  rewrite Hd, fexp_normal by lia.
  replace (53 + (ez + Zpos d) - 53 - (ez + Zpos d)) with 0 by lia.
  cbn [shr shr_m].
  replace (ez + Zpos d <=? emax - prec) with true; [reflexivity |].
  symmetry. apply Z.leb_le. unfold emax, prec. lia.
Qed.

(** A positive integer [q * 2^a] at exponent [eq - a], with [q] of at most
    53 bits, is normalised without rounding. *)
Lemma binary_normalize_exact (q : positive) (eq a : Z) :
  0 <= a ->
  Zpos (digits2_pos q) <= 53 ->
  -1074 <= eq - (53 - Zpos (digits2_pos q)) ->
  eq - (53 - Zpos (digits2_pos q)) <= 971 ->
  binary_normalize prec emax (Zpos (pos_shl q a)) (eq - a) false
  = S754_finite false (pos_shl q (53 - Zpos (digits2_pos q)))
                (eq - (53 - Zpos (digits2_pos q))).
Proof.
  intros Ha Hq Hlo Hhi.
  set (c := 53 - Zpos (digits2_pos q)) in *.
  assert (Hc : 0 <= c) by (unfold c; lia).
  assert (Hdc : Zpos (digits2_pos (pos_shl q c)) = 53)
    by (rewrite shl_digits by exact Hc; unfold c; lia).
  unfold binary_normalize, binary_round.
  rewrite shl_digits by exact Ha.
  rewrite fexp_normal by (unfold c in *; lia).
  unfold shl_align.
  replace (Z.pos (digits2_pos q) + a + (eq - a) - 53 - (eq - a))
    with (a - c) by (unfold c; lia).
  destruct (a - c) as [| d | d] eqn:Ed.
  - (* already aligned *)
    assert (a = c) by lia. subst a.
    apply round_canonical; [exact Hdc | lia].
  - (* too many bits: [d] of them are dropped, all zero *)
    assert (Ea : a = c + Zpos d) by lia.
    replace (pos_shl q a) with (Pos.iter xO (pos_shl q c) d).
    + replace (eq - c) with (eq - a + Zpos d) by lia.
      apply round_shifted; [exact Hdc | lia].
    + apply Pos2Z.inj. rewrite iter_xO_Z, !shl_Z by lia.
      rewrite Ea, Z.pow_add_r by lia. lia.
  - (* too few bits: shifting left by [d] *)
    assert (Ea : c = a + Zpos d) by lia.
    replace (Pos.iter xO (pos_shl q a) d) with (pos_shl q c).
    + replace (Z.pos (digits2_pos q) + a + (eq - a) - 53) with (eq - c)
        by (unfold c; lia).
      apply round_canonical; [exact Hdc | lia].
    + apply Pos2Z.inj. rewrite iter_xO_Z, !shl_Z by lia.
      rewrite Ea, Z.pow_add_r by lia. lia.
Qed.

(** Aligning a mantissa to a smaller exponent appends zero bits. *)
Lemma shl_align_fst (m : positive) (e ez : Z) :
  ez <= e -> fst (shl_align m e ez) = pos_shl m (e - ez).
Proof.
  intros H. unfold shl_align, pos_shl.
  destruct (ez - e) as [| d | d] eqn:E1; destruct (e - ez) as [| d' | d'] eqn:E2;
    try lia; cbn [fst]; try reflexivity.
  assert (d = d') by lia. subst d'. reflexivity.
Qed.

Lemma pow52 : Zpos 4503599627370496 = 2 ^ 52.
Proof. reflexivity. Qed.

(** Adding the sentinel to a normal number [m * 2^e] with [-52 <= e <= 0],
    that is a number of [[1, 2^53)], and subtracting it again gives the
    number back, in the binary64 specification. *)
Lemma cancel_SF (m : positive) (e : Z) :
  Zpos (digits2_pos m) = 53 -> -52 <= e <= 0 ->
  SF64sub (SF64add minus_one (S754_finite false m e)) minus_one
  = S754_finite false m e.
Proof.
  intros Hd He.
  pose proof (digits_bounds m) as [Hlo Hhi]. rewrite Hd in Hlo, Hhi.
  change (53 - 1) with 52 in Hlo.
  assert (Hp : 0 < 2 ^ (- e)) by (apply Z.pow_pos_nonneg; lia).
  assert (Hple : 2 ^ (- e) <= 2 ^ 52) by (apply Z.pow_le_mono_r; lia).
  unfold SF64sub, SF64add, minus_one. cbn [SFadd].
  rewrite Z.min_l by lia. rewrite !shl_align_fst by lia.
  change (-52 - -52) with 0. cbn [pos_shl cond_Zopp].
  destruct (Zpos m - 2 ^ (- e)) as [| q | q] eqn:Eq; [| | lia].
  - (* amount = 1 *)
    assert (Ee : e = -52).
    { destruct (Z.eq_dec e (-52)) as [E | N]; [exact E | exfalso].
      assert (2 ^ (- e) < 2 ^ 52) by (apply Z.pow_lt_mono_r; lia). lia. }
    subst e. change (2 ^ (- -52)) with (Zpos 4503599627370496) in Eq.
    assert (Em : m = 4503599627370496%positive) by lia. subst m.
    vm_compute. reflexivity.
  - assert (Hm : Zpos m = Zpos q + 2 ^ (- e)) by lia.
    assert (Hq53 : Zpos (digits2_pos q) <= 53) by (apply digits_le; lia).
    pose proof (Pos2Z.is_pos (digits2_pos q)) as Hqpos.
    replace (Z.opp (Zpos 4503599627370496) + Zpos (pos_shl m (e - -52)))
      with (Zpos (pos_shl q (e + 52))).
    2:{ rewrite !shl_Z by lia. rewrite pow52, Hm.
        replace (e - -52) with (e + 52) by lia.
        replace (2 ^ 52) with (2 ^ (- e) * 2 ^ (e + 52))
          by (rewrite <- Z.pow_add_r by lia; f_equal; lia).
        ring. }
    replace (-52) with (e - (e + 52)) at 1 by lia.
    rewrite binary_normalize_exact by lia.
    set (c := 53 - Zpos (digits2_pos q)).
    assert (Hc : 0 <= c <= 52) by (unfold c; lia).
    cbn [SFsub].
    set (ez := Z.min (e - c) (-52)).
    assert (Hez1 : ez <= e - c) by apply Z.le_min_l.
    assert (Hez2 : ez <= -52) by apply Z.le_min_r.
    rewrite !shl_align_fst by lia. cbn [cond_Zopp].
    replace (Zpos (pos_shl (pos_shl q c) (e - c - ez))
             - Z.opp (Zpos (pos_shl 4503599627370496 (-52 - ez))))
      with (Zpos (pos_shl m (e - ez))).
    2:{ rewrite !shl_Z by lia. rewrite pow52, Hm.
        replace (2 ^ (e - ez)) with (2 ^ c * 2 ^ (e - c - ez))
          by (rewrite <- Z.pow_add_r by lia; f_equal; lia).
        replace (2 ^ 52 * 2 ^ (-52 - ez))
          with (2 ^ (- e) * (2 ^ c * 2 ^ (e - c - ez))).
        - ring.
        - rewrite <- !Z.pow_add_r by lia. f_equal. lia. }
    replace ez with (e - (e - ez)) at 2 by lia.
    rewrite binary_normalize_exact by lia.
    rewrite Hd. change (53 - 53) with 0. cbn [pos_shl].
    rewrite Z.sub_0_r. reflexivity.
Qed.

End Binary64.

(** For an amount between 1 and 2^53 neither [-1.0 + amount] nor the
    subtraction of [-1.0] that follows is rounded. *)
Lemma sentinel_cancel (amount : float) :
  (1 <=? amount)%float = true -> (amount <=? 0x1p53)%float = true ->
  (-1 + amount - (-1))%float = amount.
Proof.
  intros H1 H2. apply Prim2SF_inj.
  rewrite sub_spec, add_spec.
  rewrite leb_spec in H1, H2.
  pose proof (Prim2SF_valid amount) as V.
  assert (E1 : Prim2SF (-1) = minus_one) by (vm_compute; reflexivity).
  assert (E2 : Prim2SF 1 = S754_finite false 4503599627370496 (-52))
    by (vm_compute; reflexivity).
  assert (E3 : Prim2SF 0x1p53 = S754_finite false 4503599627370496 1)
    by (vm_compute; reflexivity).
  rewrite E1. rewrite E2 in H1. rewrite E3 in H2. clear E1 E2 E3.
  destruct (Prim2SF amount) as [s | s | | s m e].
  - discriminate H1.
  - (destruct s; [discriminate H1 | discriminate H2]).
  - discriminate H1.
  - (destruct s; [discriminate H1 |]).
    unfold SFleb, SFcompare in H1, H2.
    assert (Hlo : (-52 <= e)%Z).
    { (destruct (Z.compare_spec (-52) e); [lia | lia | discriminate H1]). }
    assert (Hd : Zpos (digits2_pos m) = 53%Z).
    { cbn [valid_binary] in V. unfold bounded, canonical_mantissa in V.
      apply andb_prop in V. destruct V as [V _].
      apply Z.eqb_eq in V. unfold fexp, emin, prec, emax in V. lia. }
    (destruct (Z.compare_spec e 1) as [E | L | G]; [| | discriminate H2]).
    + subst e.
      assert (Hm : (m <= 4503599627370496)%positive).
      { unfold Pos.le, Pos.compare.
        (destruct (Pos.compare_cont Eq m 4503599627370496);
          [discriminate | discriminate | discriminate H2]). }
      pose proof (digits_bounds m) as [B _]. rewrite Hd in B.
      change (2 ^ (53 - 1))%Z with (Zpos 4503599627370496) in B.
      assert (m = 4503599627370496%positive)
        by (apply Pos.le_antisym; [exact Hm | exact B]).
      subst m.
      vm_compute. reflexivity.
    + apply cancel_SF; [exact Hd | lia].
Qed.

(** C10, as stated: when the imputation triggers, the receiver error
    balance would be exactly the amount.  For an amount of 0.01 it is
    0.010000000000000009: the sum -1.0 + 0.01 is rounded. *)
Lemma sentinels_do_not_cancel :
  suspicious_zero one_cent 0 0 = true /\
  values_at (preprocess_input 1 "TRANSFER" one_cent 100000 50000 0 0)
            "errorBalanceDest" 0
    <> Ok (Float one_cent).
Proof.
  split; [reflexivity |].
  intros H. vm_compute in H. apply Ok_inj, Float_inj in H. discriminate H.
Qed.

(** C10, amended: when the imputation triggers, the receiver error balance
    is the float [(-1.0 + amount) - (-1.0)], each operation rounded to
    nearest; for an amount between 1 and 2^53 nothing is rounded and the
    receiver error balance is exactly the amount. *)
Theorem imputed_error_dest (step : Z) (type_input : string)
    (amount old_bal_orig new_bal_orig old_bal_dest new_bal_dest : float) :
  suspicious_zero amount old_bal_dest new_bal_dest = true ->
  let df :=
    preprocess_input step type_input amount old_bal_orig new_bal_orig
                     old_bal_dest new_bal_dest in
  values_at df "errorBalanceDest" 0 = Ok (Float (-1 + amount - (-1))) /\
  ((1 <=? amount)%float = true -> (amount <=? 0x1p53)%float = true ->
   values_at df "errorBalanceDest" 0 = Ok (Float amount)).
Proof.
  intros H df. subst df. rewrite error_dest_column, H.
  split; [reflexivity |].
  intros Hlo Hhi. rewrite (sentinel_cancel amount Hlo Hhi). reflexivity.
Qed.

Lemma imputed_error_dest_witness :
  suspicious_zero 50000 0 0 = true /\
  (1 <=? 50000)%float = true /\ (50000 <=? 0x1p53)%float = true /\
  values_at empty_receiver "errorBalanceDest" 0 = Ok (Float 50000).
Proof.
  split; [reflexivity |]. split; [reflexivity |]. split; [reflexivity |].
  apply (proj2 (imputed_error_dest 1 "TRANSFER" 50000 100000 50000 0 0
                  eq_refl));
    reflexivity.
Defined.

(** * Further properties of the submitted form *)

(** The block under the spinner never writes: it answers or raises, and
    the page is the one it was given. *)
Lemma predict_block_page (model : Classifier) (df : DataFrame)
    (page : list element) :
  snd (predict_block model df page) = page.
Proof. rewrite predict_block_run. reflexivity. Qed.

(** Its answer does not depend on the page either. *)
Lemma predict_block_any_page (model : Classifier) (df : DataFrame)
    (page page' : list element) :
  fst (predict_block model df page) = fst (predict_block model df page').
Proof. rewrite !predict_block_run. reflexivity. Qed.

(** X1: a submission has one of two outcomes.  Either the classifier
    calls or their subscripts raise, and then the same exception leaves
    the handler with the page untouched (not even the divider is
    written); or the classifier answers, and then the handler cannot fail
    any more: it adds the divider and four more elements after what was
    on the page. *)
Theorem on_submit_outcome (model : Classifier) (step : Z)
    (type_input : string)
    (amount old_bal_orig new_bal_orig old_bal_dest new_bal_dest : float)
    (page : list element) :
  let df :=
    preprocess_input step type_input amount old_bal_orig new_bal_orig
                     old_bal_dest new_bal_dest in
  (exists cls,
     predict_block model df page = (Raise cls, page) /\
     on_submit model step type_input amount old_bal_orig new_bal_orig
               old_bal_dest new_bal_dest page
     = (Raise cls, page))
  \/
  (exists p l shown,
     predict_block model df page = (Ok (p, l), page) /\
     length shown = 4%nat /\
     on_submit model step type_input amount old_bal_orig new_bal_orig
               old_bal_dest new_bal_dest page
     = (Ok tt, (page ++ divider :: shown)%list)).
Proof.
  intros df. rewrite on_submit_step. fold df.
  pose proof (predict_block_page model df page) as Hpage.
  destruct (predict_block model df page) as [[[p l] | cls] page'];
    cbn [snd] in Hpage; subst page'.
  - right. exists p, l. cbn [fst snd].
    destruct (Z.eq_dec l 1) as [-> | Hne].
    + rewrite (show_result_block type_input amount df p page
                 (error_orig_column _ _ _ _ _ _ _)
                 (error_dest_column _ _ _ _ _ _ _)).
      eexists. split; [reflexivity |]. split; [| reflexivity]. reflexivity.
    + rewrite (show_result_allow type_input amount df p page Hne).
      eexists. split; [reflexivity |]. split; [| reflexivity]. reflexivity.
  - left. exists cls. split; reflexivity.
Qed.

(** X2: the handler tests [prediction == 1] and nothing else, so every
    other label (0, but also 2 or -1 from a classifier with other
    classes) is rendered as a transaction that is allowed.  The page
    gains exactly the divider, the green banner with the type and the
    amount, the probability, the recommendation to continue, and the
    fixed note; the only numbers rendered are the amount and the
    probability, so no error balance is shown. *)
Theorem other_labels_allowed (model : Classifier) (step : Z)
    (type_input : string)
    (amount old_bal_orig new_bal_orig old_bal_dest new_bal_dest : float)
    (page : list element) (p : float) (l : Z) :
  predict_block model
    (preprocess_input step type_input amount old_bal_orig new_bal_orig
                      old_bal_dest new_bal_dest) page
  = (Ok (p, l), page) ->
  l <> 1%Z ->
  let shown :=
    [divider;
     success [Lit "✅ Transaksi DIIZINKAN. ("; Str type_input;
              Lit " sebesar Rp "; Num ",.0f" (Float amount); Lit ")"];
     header [Lit "Tingkat Risiko: "; Num ".2%" (Float p)];
     subheader [Lit "Tindakan: Lanjutkan Transaksi."];
     info [Lit "Risiko dianggap rendah berdasarkan pola fitur Error Balance yang normal."]] in
  on_submit model step type_input amount old_bal_orig new_bal_orig
            old_bal_dest new_bal_dest page
  = (Ok tt, (page ++ shown)%list) /\
  fields_shown shown = [(",.0f", Float amount); (".2%", Float p)].
Proof.
  intros Hscore Hne shown. rewrite on_submit_step, Hscore. cbn [fst snd].
  rewrite (show_result_allow type_input amount _ p page Hne).
  split; reflexivity.
Qed.

Lemma other_labels_allowed_witness :
  on_submit three_class 1 "CASH_OUT" 50000 100000 50000 0 0 []
  = (Ok tt,
     [divider;
      success [Lit "✅ Transaksi DIIZINKAN. ("; Str "CASH_OUT";
               Lit " sebesar Rp "; Num ",.0f" (Float 50000); Lit ")"];
      header [Lit "Tingkat Risiko: "; Num ".2%" (Float 0x1p-2)];
      subheader [Lit "Tindakan: Lanjutkan Transaksi."];
      info [Lit "Risiko dianggap rendah berdasarkan pola fitur Error Balance yang normal."]]).
Proof.
  refine (proj1 (other_labels_allowed three_class 1 "CASH_OUT" 50000 100000
                   50000 0 0 [] 0x1p-2%float 2%Z eq_refl _)).
  discriminate.
Defined.

(** X3: how the block under the spinner fails.  An exception of
    [predict_proba] leaves the block whatever [predict] would do; an
    empty probability array raises IndexError; once the probability is
    read, an exception of [predict] leaves the block, and an empty label
    array raises IndexError. *)
Theorem predict_block_failures (model : Classifier) (df : DataFrame)
    (page : list element) :
  (forall cls,
     predict_proba model df = Raise cls ->
     predict_block model df page = (Raise cls, page)) /\
  (predict_proba model df = Ok [] ->
   predict_block model df page = (Raise "IndexError", page)) /\
  (forall proba proba0 p,
     predict_proba model df = Ok proba ->
     nth_error proba 0 = Some proba0 ->
     nth_error proba0 1 = Some p ->
     (forall cls,
        predict model df = Raise cls ->
        predict_block model df page = (Raise cls, page)) /\
     (predict model df = Ok [] ->
      predict_block model df page = (Raise "IndexError", page))).
Proof.
  rewrite predict_block_run. repeat split.
  - intros cls H. rewrite H. reflexivity.
  - intros H. rewrite H. reflexivity.
  - intros cls Hl. rewrite H. cbn.
    rewrite (getitem_Some _ _ H0). cbn.
    rewrite (getitem_Some _ _ H1). cbn.
    rewrite Hl. reflexivity.
  - intros Hl. rewrite H. cbn.
    rewrite (getitem_Some _ _ H0). cbn.
    rewrite (getitem_Some _ _ H1). cbn.
    rewrite Hl. reflexivity.
Qed.

Lemma predict_block_failures_witness :
  predict_block broken empty_receiver [] = (Raise "XGBoostError", []).
Proof.
  apply (proj1 (predict_block_failures broken empty_receiver [])).
  reflexivity.
Defined.

(** * Reading the frame *)

(** A label is found exactly when it is one of the column labels, and the
    position found is one where the label stands. *)
Lemma get_loc_None (cols : list string) (label : string) :
  get_loc cols label = None <-> ~ In label cols.
Proof.
  induction cols as [| c cols IH]; cbn.
  - tauto.
  - destruct (String.eqb_spec c label) as [E | N].
    + split; [discriminate | intros H; exfalso; apply H; left; exact E].
    + destruct (get_loc cols label) as [j |]; cbn.
      * split; [discriminate |].
        intros H. exfalso. apply H. right.
        destruct (in_dec string_dec label cols) as [I | I]; [exact I |].
        apply IH in I. discriminate I.
      * split; [| reflexivity].
        intros _ [E | I]; [exact (N E) | exact (proj1 IH eq_refl I)].
Qed.

Lemma get_loc_Some (cols : list string) (label : string) (j : nat) :
  get_loc cols label = Some j -> nth_error cols j = Some label.
Proof.
  revert j. induction cols as [| c cols IH]; cbn; intros j H.
  - discriminate H.
  - destruct (String.eqb_spec c label) as [E | N].
    + injection H as <-. cbn. f_equal. exact E.
    + destruct (get_loc cols label) as [j' |]; cbn in H; [| discriminate H].
      injection H as <-. cbn. apply IH. reflexivity.
Qed.

(** X4: reading the frame the script builds.  Row 0 of each of the nine
    labels can be read; any other label raises KeyError, whatever the
    row; and any row but 0 of one of the nine labels raises IndexError,
    the frame having one row. *)
Theorem frame_lookup (step : Z) (type_input : string)
    (amount old_bal_orig new_bal_orig old_bal_dest new_bal_dest : float)
    (label : string) (i : nat) :
  let df :=
    preprocess_input step type_input amount old_bal_orig new_bal_orig
                     old_bal_dest new_bal_dest in
  (In label (columns df) -> exists c, values_at df label 0 = Ok c) /\
  (~ In label (columns df) -> values_at df label i = Raise "KeyError") /\
  (In label (columns df) -> (0 < i)%nat ->
   values_at df label i = Raise "IndexError").
Proof.
  intros df. subst df. unfold preprocess_input.
  destruct (suspicious_zero amount old_bal_dest new_bal_dest);
    cbn [columns data].
  all: (split; [| split]);
    [ intros I;
      repeat (destruct I as [<- | I]; [eexists; reflexivity |]);
      destruct I
    | intros N; unfold values_at; cbn [columns];
      apply get_loc_None in N; rewrite N; reflexivity
    | intros I Hi; destruct i as [| [| i]]; [inversion Hi | |];
      repeat (destruct I as [<- | I]; [reflexivity |]); destruct I ].
Qed.

Lemma frame_lookup_witness :
  (exists c, values_at empty_receiver "errorBalanceDest" 0 = Ok c) /\
  values_at empty_receiver "isFraud" 0 = Raise "KeyError" /\
  values_at empty_receiver "amount" 1 = Raise "IndexError".
Proof.
  split; [| split].
  - apply (proj1 (frame_lookup 1 "TRANSFER" 50000 100000 50000 0 0
                    "errorBalanceDest" 0)).
    cbn. tauto.
  - apply (proj1 (proj2 (frame_lookup 1 "TRANSFER" 50000 100000 50000 0 0
                           "isFraud" 0))).
    cbn. intros H. repeat (destruct H as [H | H]; [discriminate H |]).
    exact H.
  - apply (proj2 (proj2 (frame_lookup 1 "TRANSFER" 50000 100000 50000 0 0
                           "amount" 1))).
    + cbn. tauto.
    + apply Nat.lt_0_1.
Defined.

(** * The page is only appended to *)

Lemma show_result_appends (type_input : string) (amount : float)
    (df : DataFrame) (probability : float) (prediction : Z)
    (page : list element) :
  show_result type_input amount df probability prediction page
  = (fst (show_result type_input amount df probability prediction []),
     (page ++ snd (show_result type_input amount df probability
                               prediction []))%list).
Proof.
  unfold show_result, Streamlit.bind, write, eval.
  destruct (prediction =? 1)%Z; cbn.
  - destruct (values_at df "errorBalanceOrig" 0) as [error_orig |]; cbn;
      [| rewrite <- !app_assoc; reflexivity].
    destruct (values_at df "errorBalanceDest" 0) as [error_dest |]; cbn;
      rewrite <- !app_assoc; reflexivity.
  - rewrite <- !app_assoc. reflexivity.
Qed.

(** X5: the handler only appends.  Whatever is on the page when the form
    is submitted stays there, in order, and both the outcome and what is
    added after it are those of a submission on an empty page. *)
Theorem on_submit_appends (model : Classifier) (step : Z)
    (type_input : string)
    (amount old_bal_orig new_bal_orig old_bal_dest new_bal_dest : float)
    (page : list element) :
  on_submit model step type_input amount old_bal_orig new_bal_orig
            old_bal_dest new_bal_dest page
  = (fst (on_submit model step type_input amount old_bal_orig new_bal_orig
                    old_bal_dest new_bal_dest []),
     (page ++ snd (on_submit model step type_input amount old_bal_orig
                             new_bal_orig old_bal_dest new_bal_dest []))%list).
Proof.
  rewrite !on_submit_step, !predict_block_run.
  match goal with
  | |- context [Py.bind ?r ?k] => destruct (Py.bind r k) as [[p l] | cls]
  end.
  - cbn [fst snd]. apply show_result_appends.
  - cbn [fst snd]. rewrite app_nil_r. reflexivity.
Qed.

(** * The whole script *)

(** The model a run works with: the cached one, or else the one the file
    gives. *)
Lemma load_model_cached (file : load_outcome) (model : Classifier)
    (w : world) :
  cache w = Some model -> load_model file w = (Ok model, w).
Proof. unfold load_model, cache_resource. intros ->. reflexivity. Qed.

Lemma load_model_fresh (model : Classifier) (w : world) :
  cache w = None ->
  load_model (Loaded model) w = (Ok model, mkWorld (Some model) (page w)).
Proof. unfold load_model, cache_resource. intros ->. reflexivity. Qed.

(** X6: a model file that cannot be loaded is fatal to the run.  With
    nothing cached, when loading raises FileNotFoundError or another
    Exception, the run ends in [st.stop()] after the page header and one
    error report, all on the main page: no widget of the form is shown,
    nothing is cached, and what the user entered plays no part. *)
Theorem load_failure_is_fatal (file : load_outcome) (ui : form_state)
    (w : world) :
  cache w = None ->
  file = FileNotFound \/ (exists message, file = Failed message) ->
  exists shown report,
    run_script file ui w
    = (Raise "StopException",
       mkWorld None (page w ++ shown ++ [(main, plain (error report))])%list)
    /\ length shown = 3%nat
    /\ Forall (fun placed => fst placed = main) shown
    /\ run_script file ui w = run_script file untouched w.
Proof.
  intros Hc [-> | [message ->]];
    unfold run_script, load_model, cache_resource, App.bind, put, stop,
           raise;
    cbn [cache page]; rewrite Hc; cbn [cache page];
    rewrite <- !app_assoc;
    eexists [_; _; _], _;
    (split; [reflexivity | split; [reflexivity | split; [| reflexivity]]]);
    repeat constructor.
Qed.

Lemma load_failure_is_fatal_witness :
  exists shown report,
    run_script FileNotFound (with_submit true untouched) (mkWorld None [])
    = (Raise "StopException",
       mkWorld None (shown ++ [(main, plain (error report))])%list)
    /\ length shown = 3%nat.
Proof.
  destruct (load_failure_is_fatal FileNotFound (with_submit true untouched)
              (mkWorld None []) eq_refl (or_introl eq_refl))
    as [shown [report [Hrun [Hlen _]]]].
  exists shown, report. split; [exact Hrun | exact Hlen].
Defined.

(** The button of the form, where the script places it. *)
Lemma form_block_run (model : Classifier) (ui : form_state) (w : world) :
  exists widgets,
    length widgets = 11%nat /\
    Forall (fun placed => fst placed <> in_form prediction_form) widgets /\
    forall b,
      form_block model (with_submit b ui) w
      = (fst (form b model (step ui) (type_input ui) (amount ui)
                   (old_bal_orig ui) (new_bal_orig ui) (old_bal_dest ui)
                   (new_bal_dest ui) []),
         mkWorld (cache w)
           (page w ++ widgets
            ++ [(in_form prediction_form,
                 form_submit_button "ANALISIS FRAUD")]
            ++ map (fun e => (in_form prediction_form, plain e))
                   (snd (form b model (step ui) (type_input ui) (amount ui)
                              (old_bal_orig ui) (new_bal_orig ui)
                              (old_bal_dest ui) (new_bal_dest ui) [])))%list).
Proof.
  eexists [_; _; _; _; _; _; _; _; _; _; _].
  split; [reflexivity |]. split.
  2:{ intros b.
      cbv [form_block App.bind input put within App.ret cache page
           with_submit submit_btn].
      cbn [step type_input amount old_bal_orig new_bal_orig
           old_bal_dest new_bal_dest].
      destruct (form b model (step ui) (type_input ui) (amount ui)
                     (old_bal_orig ui) (new_bal_orig ui) (old_bal_dest ui)
                     (new_bal_dest ui) []) as [r written].
      cbn [fst snd]. rewrite <- !app_assoc. reflexivity. }
  repeat constructor; discriminate.
Qed.

(** A run up to the form, when a model is at hand. *)
Lemma run_script_with_model (file : load_outcome) (model : Classifier)
    (w : world) :
  cache w = Some model \/ (cache w = None /\ file = Loaded model) ->
  exists head,
    length head = 6%nat /\
    Forall (fun placed => fst placed <> in_form prediction_form) head /\
    forall ui,
      run_script file ui w
      = form_block model ui (mkWorld (Some model) (page w ++ head)%list).
Proof.
  intros H. eexists [_; _; _; _; _; _].
  split; [reflexivity |]. split.
  2:{ intros ui. unfold run_script. cbn [App.bind put cache page].
      unfold App.bind at 1.
      destruct H as [Hc | [Hc ->]].
      - rewrite (load_model_cached file model) by exact Hc.
        cbn [App.bind put cache page]. rewrite Hc, <- !app_assoc.
        reflexivity.
      - rewrite load_model_fresh by exact Hc.
        cbn [App.bind put cache page]. rewrite <- !app_assoc.
        reflexivity. }
  repeat constructor; discriminate.
Qed.

(** X7: the model is loaded once.  A run that finds nothing cached and
    can load the file caches the model, however the run ends; and a run
    that finds a model cached never looks at the file: it goes as if the
    file had just given that model, and leaves the cache as it is. *)
Theorem model_loaded_once (model : Classifier) (file : load_outcome)
    (ui : form_state) (w : world) :
  (cache w = None ->
   cache (snd (run_script (Loaded model) ui w)) = Some model) /\
  (cache w = Some model ->
   run_script file ui w = run_script (Loaded model) ui w /\
   cache (snd (run_script file ui w)) = Some model).
Proof.
  assert (Hform : forall w', cache (snd (form_block model ui w')) = cache w').
  { intros w'. destruct (form_block_run model ui w') as [ws [_ [_ Hrun]]].
    specialize (Hrun (submit_btn ui)).
    replace (with_submit (submit_btn ui) ui) with ui in Hrun
      by (destruct ui; reflexivity).
    rewrite Hrun. reflexivity. }
  split.
  - intros Hc.
    destruct (run_script_with_model (Loaded model) model w
                (or_intror (conj Hc eq_refl))) as [head [_ [_ Hrun]]].
    rewrite Hrun, Hform. reflexivity.
  - intros Hc.
    destruct (run_script_with_model file model w (or_introl Hc))
      as [head [_ [_ Hrun]]].
    destruct (run_script_with_model (Loaded model) model w (or_introl Hc))
      as [head' [_ [_ Hrun']]].
    split.
    + unfold run_script. cbn [App.bind put cache page].
      unfold App.bind.
      rewrite (load_model_cached file model),
              (load_model_cached (Loaded model) model) by exact Hc.
      reflexivity.
    + rewrite Hrun, Hform. reflexivity.
Qed.

Lemma model_loaded_once_witness :
  cache (snd (run_script (Loaded broken) (with_submit true untouched)
                         (mkWorld None [])))
  = Some broken /\
  run_script FileNotFound untouched (mkWorld (Some cautious) [])
  = run_script (Loaded cautious) untouched (mkWorld (Some cautious) []).
Proof.
  split.
  - apply (proj1 (model_loaded_once broken FileNotFound
                    (with_submit true untouched) (mkWorld None []))).
    reflexivity.
  - apply (proj2 (model_loaded_once cautious FileNotFound untouched
                    (mkWorld (Some cautious) []))).
    reflexivity.
Defined.



(** * When an error balance is zero *)

Section ZeroError.

Local Open Scope Z_scope.

(** Shifting right by fewer bits than the mantissa has leaves a positive
    mantissa. *)
Lemma iter_shr_pos (p : positive) :
  forall (m : positive) (r s : bool),
    Zpos p < Zpos (digits2_pos m) ->
    exists m', shr_m (Pos.iter shr_1 (Build_shr_record (Zpos m) r s) p)
               = Zpos m'.
Proof.
  induction p as [| p IH] using Pos.peano_ind; intros m r s H.
  - destruct m as [m | m |]; cbn in H |- *; try (eexists; reflexivity).
    lia.
  - rewrite Pos.iter_succ_r.
    destruct m as [m | m |]; cbn [shr_1 digits2_pos] in H |- *.
    + apply IH. lia.
    + apply IH. lia.
    + cbn in H. lia.
Qed.

Lemma shr_record_of_loc_m (m : Z) (l : location) :
  shr_m (shr_record_of_loc m l) = m.
Proof. destruct l as [| []]; reflexivity. Qed.

(** The first step of rounding keeps the mantissa positive, and does not
    lower the exponent. *)
Lemma shr_fexp_pos (m : positive) (e : Z) (l : location) :
  emin <= e ->
  exists m',
    shr_m (fst (shr_fexp prec emax (Zpos m) e l)) = Zpos m' /\
    emin <= snd (shr_fexp prec emax (Zpos m) e l).
Proof.
  intros He. unfold shr_fexp, shr. cbn [Zdigits2].
  destruct (fexp prec emax (Zpos (digits2_pos m) + e) - e)
    as [| n | n] eqn:En.
  - exists m. cbn [fst snd]. split; [apply shr_record_of_loc_m | exact He].
  - cbn [fst snd]. rewrite iter_pos_iter.
    assert (Hn : Zpos n < Zpos (digits2_pos m)).
    { unfold fexp, SpecFloat.emin, prec, emax in *. lia. }
    destruct (shr_record_of_loc (Zpos m) l) as [m0 r s] eqn:Er.
    assert (Hm0 : m0 = Zpos m).
    { rewrite <- (shr_record_of_loc_m (Zpos m) l), Er. reflexivity. }
    subst m0.
    destruct (iter_shr_pos n m r s Hn) as [m' Hm'].
    exists m'. split; [exact Hm' | lia].
  - exists m. cbn [fst snd]. split; [apply shr_record_of_loc_m | exact He].
Qed.

Lemma round_nearest_even_pos (m : positive) (l : location) :
  exists m', round_nearest_even (Zpos m) l = Zpos m'.
Proof.
  destruct l as [| []]; cbn [round_nearest_even];
    try (eexists; reflexivity).
  destruct (Z.even (Zpos m)); eexists; reflexivity.
Qed.

(** Rounding a positive mantissa at an exponent that is not below [emin]
    never gives zero. *)
Lemma binary_round_aux_nonzero (sx : bool) (m : positive) (e : Z)
    (l : location) :
  emin <= e ->
  is_zero_SF (binary_round_aux prec emax sx (Zpos m) e l) = false.
Proof.
  intros He. unfold binary_round_aux.
  destruct (shr_fexp_pos m e l He) as [m1 [Hm1 He1]].
  destruct (shr_fexp prec emax (Zpos m) e l) as [mrs1 e1].
  cbn [fst snd] in Hm1, He1. rewrite Hm1.
  destruct (round_nearest_even_pos m1 (loc_of_shr_record mrs1)) as [m2 ->].
  destruct (shr_fexp_pos m2 e1 loc_Exact He1) as [m3 [Hm3 _]].
  destruct (shr_fexp prec emax (Zpos m2) e1 loc_Exact) as [mrs2 e2].
  cbn [fst] in Hm3. rewrite Hm3.
  destruct (e2 <=? emax - prec); reflexivity.
Qed.

Lemma binary_round_nonzero (sx : bool) (p : positive) (e : Z) :
  emin <= e -> is_zero_SF (binary_round prec emax sx p e) = false.
Proof.
  intros He. unfold binary_round, shl_align.
  assert (Hf : emin <= fexp prec emax (Zpos (digits2_pos p) + e))
    by (unfold fexp; lia).
  destruct (fexp prec emax (Zpos (digits2_pos p) + e) - e);
    apply binary_round_aux_nonzero; assumption.
Qed.

Lemma binary_normalize_nonzero (d e : Z) :
  d <> 0 -> emin <= e ->
  is_zero_SF (binary_normalize prec emax d e false) = false.
Proof.
  intros Hd He. destruct d as [| p | p]; [contradiction | |];
    apply binary_round_nonzero; exact He.
Qed.

Lemma SFeqb_zero (x : spec_float) :
  SFeqb x (S754_zero false) = is_zero_SF x.
Proof. destruct x as [s | s | | s m e]; try destruct s; reflexivity. Qed.

Lemma SFeqb_finite (sx sy : bool) (mx my : positive) (ex ey : Z) :
  SFeqb (S754_finite sx mx ex) (S754_finite sy my ey)
  = Bool.eqb sx sy && (ex =? ey) && (mx =? my)%positive.
Proof.
  unfold SFeqb, SFcompare.
  change (Pos.compare_cont Eq mx my) with (Pos.compare mx my).
  destruct sx, sy; cbn [Bool.eqb andb]; try reflexivity;
    destruct (Z.compare_spec ex ey) as [E | L | G];
    try (subst ey; rewrite Z.eqb_refl; cbn [andb];
         destruct (Pos.compare_spec mx my) as [E' | L' | G'];
         [ subst my; rewrite Pos.eqb_refl; reflexivity
         | symmetry; apply Pos.eqb_neq; lia
         | symmetry; apply Pos.eqb_neq; lia ]);
    replace (ex =? ey) with false by (symmetry; apply Z.eqb_neq; lia);
    reflexivity.
Qed.

(** A valid finite number is canonical: its exponent is the one its
    magnitude asks for, and so is not below [emin]. *)
Lemma valid_finite (s : bool) (m : positive) (e : Z) :
  valid_binary (S754_finite s m e) = true ->
  fexp prec emax (Zpos (digits2_pos m) + e) = e /\ emin <= e.
Proof.
  cbn [SpecFloat.valid_binary]. unfold bounded, canonical_mantissa.
  intros V. apply andb_prop in V. destruct V as [V _].
  apply Z.eqb_eq in V. split; [exact V |].
  rewrite <- V. unfold fexp. lia.
Qed.

(** The difference of two finite numbers is zero exactly when they are
    equal. *)
Lemma SFsub_finite_zero (sx sy : bool) (mx my : positive) (ex ey : Z) :
  valid_binary (S754_finite sx mx ex) = true ->
  valid_binary (S754_finite sy my ey) = true ->
  is_zero_SF (SF64sub (S754_finite sx mx ex) (S754_finite sy my ey))
  = SFeqb (S754_finite sx mx ex) (S754_finite sy my ey).
Proof.
  intros Vx Vy.
  destruct (valid_finite _ _ _ Vx) as [Cx Ex].
  destruct (valid_finite _ _ _ Vy) as [Cy Ey].
  rewrite SFeqb_finite. unfold SF64sub. cbn [SFsub].
  set (ez := Z.min ex ey).
  assert (Hzx : ez <= ex) by apply Z.le_min_l.
  assert (Hzy : ez <= ey) by apply Z.le_min_r.
  assert (Hz : emin <= ez) by (unfold ez; lia).
  rewrite !shl_align_fst by assumption.
  pose proof (shl_Z mx (ex - ez) ltac:(lia)) as Hx.
  pose proof (shl_Z my (ey - ez) ltac:(lia)) as Hy.
  pose proof (shl_digits mx (ex - ez) ltac:(lia)) as Dx.
  pose proof (shl_digits my (ey - ez) ltac:(lia)) as Dy.
  set (X := pos_shl mx (ex - ez)) in *.
  set (Y := pos_shl my (ey - ez)) in *.
  destruct (Z.eq_dec (cond_Zopp sx (Zpos X) - cond_Zopp sy (Zpos Y)) 0)
    as [Z0 | NZ].
  - rewrite Z0. cbn [binary_normalize is_zero_SF]. symmetry.
    assert (Hs : sx = sy /\ X = Y).
    { destruct sx, sy; cbn [cond_Zopp] in Z0; split;
        try reflexivity; try lia. }
    destruct Hs as [-> HXY].
    assert (Hd : Zpos (digits2_pos mx) + ex = Zpos (digits2_pos my) + ey)
      by (rewrite HXY in Dx; lia).
    assert (He : ex = ey) by (rewrite <- Cx, <- Cy, Hd; reflexivity).
    subst ey.
    assert (Hm : mx = my).
    { apply Pos2Z.inj.
      assert (Hp : 0 < 2 ^ (ex - ez)) by (apply Z.pow_pos_nonneg; lia).
      rewrite HXY in Hx. rewrite Hx in Hy. nia. }
    subst my. rewrite Bool.eqb_reflx, Z.eqb_refl, Pos.eqb_refl.
    reflexivity.
  - rewrite binary_normalize_nonzero by assumption. symmetry.
    apply not_true_is_false. intros T.
    apply andb_prop in T. destruct T as [T Tm].
    apply andb_prop in T. destruct T as [Ts Te].
    apply Bool.eqb_prop in Ts. apply Z.eqb_eq in Te. apply Pos.eqb_eq in Tm.
    subst sy ey my. apply NZ. subst X Y. lia.
Qed.

(** [x - y] is a zero exactly when [x == y], for [y] finite. *)
Lemma SFsub_zero (x y : spec_float) :
  valid_binary x = true -> valid_binary y = true -> finite_SF y = true ->
  is_zero_SF (SF64sub x y) = SFeqb x y.
Proof.
  intros Vx Vy Fy.
  destruct y as [sy | sy | | sy my ey]; try discriminate Fy;
    destruct x as [sx | sx | | sx mx ex];
    try (apply SFsub_finite_zero; assumption);
    try destruct sx; try destruct sy; reflexivity.
Qed.

End ZeroError.

(** A float that [is_finite] is a zero or a finite number of the
    specification. *)
Lemma is_finite_SF (b : float) :
  is_finite b = true -> finite_SF (Prim2SF b) = true.
Proof.
  unfold is_finite, is_nan, is_infinity. intros H.
  apply negb_true_iff, orb_false_iff in H. destruct H as [Hn Hi].
  apply negb_false_iff in Hn.
  rewrite eqb_spec in Hn. rewrite eqb_spec, abs_spec in Hi.
  assert (E : Prim2SF infinity = S754_infinity false)
    by (vm_compute; reflexivity).
  rewrite E in Hi.
  destruct (Prim2SF b) as [s | s | | s m e]; try reflexivity.
  - destruct s; discriminate Hi.
  - discriminate Hn.
Qed.

(** In Python: for [b] finite, [a - b == 0] exactly when [a == b]. *)
Lemma sub_eqb_zero (a b : float) :
  is_finite b = true -> ((a - b) =? 0)%float = (a =? b)%float.
Proof.
  intros Hb. rewrite !eqb_spec, sub_spec.
  assert (E : Prim2SF 0 = S754_zero false) by (vm_compute; reflexivity).
  rewrite E, SFeqb_zero.
  apply SFsub_zero; [apply Prim2SF_valid | apply Prim2SF_valid |].
  apply is_finite_SF. exact Hb.
Qed.

(** X9: an error balance is zero exactly when the balances are conserved,
    as Python compares floats.  For a finite [old_bal_orig] the sender
    error balance is [== 0] if and only if
    [new_bal_orig + amount == old_bal_orig]; for a finite [new_bal_dest]
    the receiver error balance is [== 0] if and only if the receiver
    balances [b], [a] the frame holds satisfy [b + amount == a]. *)
Theorem zero_error_iff_conserved (step : Z) (type_input : string)
    (amount old_bal_orig new_bal_orig old_bal_dest new_bal_dest : float) :
  is_finite old_bal_orig = true ->
  is_finite new_bal_dest = true ->
  let df :=
    preprocess_input step type_input amount old_bal_orig new_bal_orig
                     old_bal_dest new_bal_dest in
  exists error_orig b a error_dest : float,
    values_at df "errorBalanceOrig" 0 = Ok (Float error_orig) /\
    (error_orig =? 0)%float = (new_bal_orig + amount =? old_bal_orig)%float /\
    values_at df "oldBalanceDest" 0 = Ok (Float b) /\
    values_at df "newBalanceDest" 0 = Ok (Float a) /\
    values_at df "errorBalanceDest" 0 = Ok (Float error_dest) /\
    (error_dest =? 0)%float = (b + amount =? a)%float.
Proof.
  intros Horig Hdest df. subst df. unfold preprocess_input.
  destruct (suspicious_zero amount old_bal_dest new_bal_dest).
  - exists (new_bal_orig + amount - old_bal_orig)%float,
           (-1)%float, (-1)%float, (-1 + amount - (-1))%float.
    repeat split.
    + apply sub_eqb_zero. exact Horig.
    + apply sub_eqb_zero. reflexivity.
  - exists (new_bal_orig + amount - old_bal_orig)%float,
           old_bal_dest, new_bal_dest,
           (old_bal_dest + amount - new_bal_dest)%float.
    repeat split.
    + apply sub_eqb_zero. exact Horig.
    + apply sub_eqb_zero. exact Hdest.
Qed.

Lemma zero_error_iff_conserved_witness :
  is_finite 100000 = true /\ is_finite 50000 = true /\
  exists error_orig b a error_dest : float,
    values_at (preprocess_input 1 "TRANSFER" 50000 100000 50000 0 50000)
              "errorBalanceOrig" 0 = Ok (Float error_orig) /\
    (error_orig =? 0)%float = (50000 + 50000 =? 100000)%float /\
    values_at (preprocess_input 1 "TRANSFER" 50000 100000 50000 0 50000)
              "oldBalanceDest" 0 = Ok (Float b) /\
    values_at (preprocess_input 1 "TRANSFER" 50000 100000 50000 0 50000)
              "newBalanceDest" 0 = Ok (Float a) /\
    values_at (preprocess_input 1 "TRANSFER" 50000 100000 50000 0 50000)
              "errorBalanceDest" 0 = Ok (Float error_dest) /\
    (error_dest =? 0)%float = (b + 50000 =? a)%float.
Proof.
  split; [reflexivity |]. split; [reflexivity |].
  apply (zero_error_iff_conserved 1 "TRANSFER" 50000 100000 50000 0 50000);
    reflexivity.
Defined.
